(** * Landsat_Surface_Reflectance: a shallow embedding

    The source is one Python function (src/Landsat_data_download.py) that
    drives the Earth Engine client: it builds a deferred query, asks the
    service for its size, and for every image fetches the metadata, samples
    one point and appends rows to a pandas table.

    The embedding has two layers.
    - The function itself, written in a small program monad whose only
      effects are the ones the Python code has: [getInfo] round trips to the
      service, reads of the caller's [bands] list object, and exceptions.
    - A reference semantics of the catalogue service for the handful of
      Earth Engine operations the function calls, so that statements about
      what the service computes (the cloud filter, the linear correction)
      can be made end to end. *)

From stdpp Require Import base strings list gmap.

(** ** Numbers

    Python floats travel between client and service. Their arithmetic is the
    service's own; the development is parametric in it. *)

Class Numeric (num : Type) := {
  num_mul : num → num → num;
  num_add : num → num → num;
  num_lt : num → num → bool;
  num_lt_asym : ∀ x y, num_lt x y = true → num_lt y x = false
}.

(** ** Python values, exceptions, dictionaries *)

#[warnings="-register-all"]
Inductive value (num : Type) : Type :=
| VNone
| VNaN
| VNum (x : num)
| VStr (s : string)
| VList (l : list (value num)).
Arguments VNone {num}.
Arguments VNaN {num}.
Arguments VNum {num} x.
Arguments VStr {num} s.
Arguments VList {num} l.

Inductive error : Type :=
| KeyError (key : string)
| ValueError (msg : string)
| EEException (msg : string)
| InvalidIndexError (msg : string)
| OtherException (class msg : string).

Inductive result (A : Type) : Type :=
| Ok (a : A)
| Err (e : error).
Arguments Ok {A} a.
Arguments Err {A} e.

Definition result_bind {A B} (r : result A) (k : A → result B) : result B :=
  match r with
  | Ok a => k a
  | Err e => Err e
  end.

(** [d[key]] on a Python dict. *)
Definition getitem {V} (d : gmap string V) (key : string) : result V :=
  match d !! key with
  | Some v => Ok v
  | None => Err (KeyError key)
  end.

(** ** The pandas table

    Row labels are the default [0 .. n-1] ([ignore_index=True] keeps them so),
    hence a row is identified with its position. *)

Record DataFrame (num : Type) : Type := {
  columns : list string;
  rows : list (list (value num))
}.
Arguments columns {num} d.
Arguments rows {num} d.

(** [pd.DataFrame(columns=cols)] *)
Definition DataFrame_new {num} (cols : list string) : DataFrame num :=
  {| columns := cols; rows := [] |}.

(** [df.loc[i] = vals]: overwrite row [i] when present, otherwise enlarge the
    table by that row; a list of the wrong length is a [ValueError]. *)
Definition loc_setitem {num} (df : DataFrame num) (i : nat)
  (vals : list (value num)) : result (DataFrame num) :=
  if decide (length vals = length (columns df)) then
    Ok {| columns := columns df;
          rows := if decide (i < length (rows df)) then <[i:=vals]> (rows df)
                  else rows df ++ [vals] |}
  else Err (ValueError "cannot set a row with mismatched columns").

(** [df.append(other, ignore_index=True)] for a dict [other]. The dict
    becomes a one-row table over its keys, which is concatenated below [df]:
    keys that are not yet columns become new columns (older rows get NaN
    there), and the new row takes, for every column, the dict's entry or
    NaN. Aligning the two tables needs the labels of [df] to be unique: on a
    table with a repeated column label the call raises [InvalidIndexError]
    (pandas 1.5). *)
Definition append {num} (df : DataFrame num) (other : gmap string (value num))
  : result (DataFrame num) :=
  if decide (NoDup (columns df)) then
    let idx_diff := filter (λ k, k ∉ columns df) (map fst (map_to_list other)) in
    let combined_columns := columns df ++ idx_diff in
    Ok {| columns := combined_columns;
          rows := map (λ r, r ++ replicate (length idx_diff) VNaN) (rows df)
                  ++ [map (λ c, default VNaN (other !! c)) combined_columns] |}
  else
    Err (InvalidIndexError
           "Reindexing only valid with uniquely valued Index objects").

(** ** Deferred Earth Engine objects

    The client library only builds expression trees; nothing is computed
    until [getInfo] ships one to the service. *)

Inductive Geometry (num : Type) : Type :=
| Point (lon lat : num).
Arguments Point {num} lon lat.

(** [geometry[key]]: the client library answers it from the GeoJSON form of
    a geometry built from plain numbers, without a round trip. *)
Definition Geometry_getitem {num} (g : Geometry num) (key : string)
  : result (value num) :=
  match g with
  | Point lon lat =>
      if decide (key = "type") then Ok (VStr "Point")
      else if decide (key = "coordinates") then Ok (VList [VNum lon; VNum lat])
      else Err (KeyError key)
  end.

(** [ee.Date(s)] *)
Inductive Date : Type :=
| MkDate (s : string).

Inductive ImageCollection (num : Type) : Type :=
| Collection (address : string)
| select (c : ImageCollection num) (bands : list string)
| filterBounds (c : ImageCollection num) (g : Geometry num)
| filterDate (c : ImageCollection num) (start stop : Date)
| filterMetadata (c : ImageCollection num) (name operator : string) (v : num).
Arguments Collection {num} address.
Arguments select {num} c bands.
Arguments filterBounds {num} c g.
Arguments filterDate {num} c start stop.
Arguments filterMetadata {num} c name operator v.

(** The two integers the function asks for are [c.size()] and [l.size()];
    [c.toList(count)] takes such an integer, so lists and numbers are
    defined together. *)
Inductive Number (num : Type) : Type :=
| size (c : ImageCollection num)
| list_size (l : EEList num)
with EEList (num : Type) : Type :=
| toList (c : ImageCollection num) (count : Number num).
Arguments size {num} c.
Arguments list_size {num} l.
Arguments toList {num} c count.

Inductive Image (num : Type) : Type :=
| get (l : EEList num) (i : nat)
| multiply (im : Image num) (v : value num)
| add (im : Image num) (v : value num).
Arguments get {num} l i.
Arguments multiply {num} im v.
Arguments add {num} im v.

Inductive FeatureCollection (num : Type) : Type :=
| sampleRegions (im : Image num) (collection : list (Geometry num))
    (scale : num) (geometries : bool).
Arguments sampleRegions {num} im collection scale geometries.

(** What [getInfo] answers for an image and for a sampled feature: the
    function reads nothing but the ['properties'] entry of either. *)
Record ImageInfo (num : Type) : Type := {
  properties : gmap string (value num)
}.
Arguments properties {num} i.

Record FeatureInfo (num : Type) : Type := {
  feature_properties : gmap string (value num)
}.
Arguments feature_properties {num} f.

(** The service as the client sees it: one answer, or one exception, per
    [getInfo]. *)
Record Service (num : Type) : Type := {
  getInfo_number : Number num → result nat;
  getInfo_image : Image num → result (ImageInfo num);
  getInfo_features : FeatureCollection num → result (list (FeatureInfo num))
}.
Arguments getInfo_number {num} s q.
Arguments getInfo_image {num} s q.
Arguments getInfo_features {num} s q.

(** ** The program monad

    List objects live in a heap so that aliasing of the [bands] argument
    (and of its shared default) is visible; the other arguments are numbers
    and strings, which Python cannot mutate. [Store] is part of the
    language; whether the function uses it is what the frame property is
    about. A location the heap does not hold reads as the empty list. *)

Definition loc := positive.

Inductive prog (num A : Type) : Type :=
| Ret (a : A)
| Raise (e : error)
| Load (l : loc) (k : list string → prog num A)
| Store (l : loc) (v : list string) (k : prog num A)
| GetNumber (q : Number num) (k : nat → prog num A)
| GetImage (q : Image num) (k : ImageInfo num → prog num A)
| GetFeatures (q : FeatureCollection num)
    (k : list (FeatureInfo num) → prog num A).
Arguments Ret {num A} a.
Arguments Raise {num A} e.
Arguments Load {num A} l k.
Arguments Store {num A} l v k.
Arguments GetNumber {num A} q k.
Arguments GetImage {num A} q k.
Arguments GetFeatures {num A} q k.

Fixpoint bind {num A B} (p : prog num A) (f : A → prog num B) : prog num B :=
  match p with
  | Ret a => f a
  | Raise e => Raise e
  | Load l k => Load l (λ v, bind (k v) f)
  | Store l v k => Store l v (bind k f)
  | GetNumber q k => GetNumber q (λ n, bind (k n) f)
  | GetImage q k => GetImage q (λ i, bind (k i) f)
  | GetFeatures q k => GetFeatures q (λ fs, bind (k fs) f)
  end.

Definition lift {num A} (r : result A) : prog num A :=
  match r with
  | Ok a => Ret a
  | Err e => Raise e
  end.

Declare Scope prog_scope.
Delimit Scope prog_scope with prog.
Notation "x ←' p ; q" := (bind p (λ x, q))
  (at level 100, p at next level, right associativity) : prog_scope.
Notation "x ←? r ; q" := (result_bind r (λ x, q))
  (at level 100, r at next level, right associativity) : prog_scope.
Open Scope prog_scope.

(** One round trip, as recorded in a run's trace. *)
Inductive event (num : Type) : Type :=
| EvNumber (q : Number num) (r : result nat)
| EvImage (q : Image num) (r : result (ImageInfo num))
| EvFeatures (q : FeatureCollection num) (r : result (list (FeatureInfo num))).
Arguments EvNumber {num} q r.
Arguments EvImage {num} q r.
Arguments EvFeatures {num} q r.

Definition event_error {num} (ev : event num) : option error :=
  match ev with
  | EvNumber _ (Err e) | EvImage _ (Err e) | EvFeatures _ (Err e) => Some e
  | _ => None
  end.

Record outcome (num A : Type) : Type := {
  trace : list (event num);
  final_heap : gmap loc (list string);
  returned : result A
}.
Arguments trace {num A} o.
Arguments final_heap {num A} o.
Arguments returned {num A} o.

Definition logged {num A} (ev : event num) (o : outcome num A) : outcome num A :=
  {| trace := ev :: trace o; final_heap := final_heap o; returned := returned o |}.

(** Running a program against a service: an exception, whether raised by the
    client code or by a round trip, ends the run. *)
Fixpoint run {num A} (srv : Service num) (h : gmap loc (list string))
  (p : prog num A) : outcome num A :=
  match p with
  | Ret a => {| trace := []; final_heap := h; returned := Ok a |}
  | Raise e => {| trace := []; final_heap := h; returned := Err e |}
  | Load l k => run srv h (k (h !!! l))
  | Store l v k => run srv (<[l:=v]> h) k
  | GetNumber q k =>
      match getInfo_number srv q with
      | Ok n => logged (EvNumber q (Ok n)) (run srv h (k n))
      | Err e => {| trace := [EvNumber q (Err e)]; final_heap := h;
                    returned := Err e |}
      end
  | GetImage q k =>
      match getInfo_image srv q with
      | Ok i => logged (EvImage q (Ok i)) (run srv h (k i))
      | Err e => {| trace := [EvImage q (Err e)]; final_heap := h;
                    returned := Err e |}
      end
  | GetFeatures q k =>
      match getInfo_features srv q with
      | Ok fs => logged (EvFeatures q (Ok fs)) (run srv h (k fs))
      | Err e => {| trace := [EvFeatures q (Err e)]; final_heap := h;
                    returned := Err e |}
      end
  end.

(** ** The function *)

Section Client.
Context {num : Type}.

(** [for band in bands: data_row[band] = properties[band]] *)
Fixpoint band_loop (bands : list string) (properties : gmap string (value num))
  (data_row : gmap string (value num)) : result (gmap string (value num)) :=
  match bands with
  | [] => Ok data_row
  | band :: rest =>
      v ←? getitem properties band;
      band_loop rest properties (<[band:=v]> data_row)
  end.

(** The body of [for feature in sampled_values] (source lines 103-115). *)
Definition feature_body (point_of_interest : Geometry num) (bands : loc)
  (date cloud_cover : value num) (feature : FeatureInfo num)
  (df : DataFrame num) : prog num (DataFrame num) :=
  let properties := feature_properties feature in
  coordinate ←' lift (Geometry_getitem point_of_interest "coordinates");
  let data_row : gmap string (value num) :=
    <["CloudCover":=cloud_cover]> (<["Date":=date]>
      (<["Coordinate":=coordinate]> ∅)) in
  bs ←' Load bands (λ bs, Ret bs);
  data_row ←' lift (band_loop bs properties data_row);
  lift (append df data_row).

Fixpoint feature_loop (point_of_interest : Geometry num) (bands : loc)
  (date cloud_cover : value num) (sampled_values : list (FeatureInfo num))
  (df : DataFrame num) : prog num (DataFrame num) :=
  match sampled_values with
  | [] => Ret df
  | feature :: rest =>
      df ←' feature_body point_of_interest bands date cloud_cover feature df;
      feature_loop point_of_interest bands date cloud_cover rest df
  end.

(** The body of [for i in range(...)] (source lines 86-115). *)
Definition image_body (point_of_interest : Geometry num) (bands : loc)
  (scale : num) (image_list : EEList num) (i : nat) (df : DataFrame num)
  : prog num (DataFrame num) :=
  let image := get image_list i in
  info ←' GetImage image (λ info, Ret info);
  let properties := properties info in
  date ←' lift (getitem properties "DATE_ACQUIRED");
  cloud_cover ←' lift (getitem properties "CLOUD_COVER");
  M ←' lift (getitem properties "REFLECTANCE_MULT_BAND_2");
  A ←' lift (getitem properties "REFLECTANCE_ADD_BAND_2");
  let sampled_data :=
    sampleRegions (add (multiply image M) A) [point_of_interest] scale true in
  sampled_values ←' GetFeatures sampled_data (λ fs, Ret fs);
  feature_loop point_of_interest bands date cloud_cover sampled_values df.

Fixpoint image_loop (point_of_interest : Geometry num) (bands : loc)
  (scale : num) (image_list : EEList num) (range : list nat)
  (df : DataFrame num) : prog num (DataFrame num) :=
  match range with
  | [] => Ret df
  | i :: rest =>
      df ←' image_body point_of_interest bands scale image_list i df;
      image_loop point_of_interest bands scale image_list rest df
  end.

(** [for i in range(len(empty_df.columns)): empty_df.loc[0] = [None] * len(...)] *)
Fixpoint empty_loop (range : list nat) (empty_df : DataFrame num)
  : result (DataFrame num) :=
  match range with
  | [] => Ok empty_df
  | _ :: rest =>
      empty_df ←? loc_setitem empty_df 0
                    (replicate (length (columns empty_df)) VNone);
      empty_loop rest empty_df
  end.

(** The query of source line 68. *)
Definition landsat_query (point_of_interest : Geometry num)
  (start_date end_date collection_address : string) (bands : list string)
  (max_cloud_cover : num) : ImageCollection num :=
  filterMetadata
    (filterDate
      (filterBounds (select (Collection collection_address) bands)
         point_of_interest)
      (MkDate start_date) (MkDate end_date))
    "CLOUD_COVER" "less_than" max_cloud_cover.

Definition Landsat_Surface_Reflectance (longitude latitude : num)
  (start_date end_date : string) (collection_address : string) (bands : loc)
  (max_cloud_cover : num) (scale : num) : prog num (DataFrame num) :=
  let point_of_interest := Point longitude latitude in
  bs ←' Load bands (λ bs, Ret bs);
  let landsat := landsat_query point_of_interest start_date end_date
                   collection_address bs max_cloud_cover in
  n ←' GetNumber (size landsat) (λ n, Ret n);
  if decide (n = 0) then
    bs ←' Load bands (λ bs, Ret bs);
    let empty_df := DataFrame_new (["Date"; "Coordinate"] ++ bs ++ ["CloudCover"]) in
    lift (empty_loop (seq 0 (length (columns empty_df))) empty_df)
  else
    bs ←' Load bands (λ bs, Ret bs);
    let df := DataFrame_new (["Date"; "Coordinate"] ++ bs ++ ["CloudCover"]) in
    let image_list := toList landsat (size landsat) in
    n ←' GetNumber (list_size image_list) (λ n, Ret n);
    image_loop point_of_interest bands scale image_list (seq 0 n) df.

End Client.

(** The default arguments of the [def] line. The list is built once, when the
    function is defined, and every call that omits [bands] receives that same
    object: a fixed location of the heap. *)
Definition default_collection_address : string := "LANDSAT/LC08/C02/T1_L2".
Definition default_bands : loc := 1%positive.
Definition heap_at_definition : gmap loc (list string) :=
  {[ default_bands := ["SR_B4"; "SR_B3"; "SR_B2"] ]}.

(** ** A reference semantics of the catalogue service

    The service the function delegates to (filtering, arithmetic on images,
    point sampling) is not under src/. The definitions of this section model
    it for the operations the function calls and nothing more, over an
    arbitrary catalogue. *)

Section Reference.
Context {num : Type} `{!Numeric num}.

(** Modelled from the spec: an image of the catalogue, which is not under
    src/. It has metadata, an acquisition time, a footprint, and per band the
    pixel under a point at a given scale ([None] where the pixel is masked). *)
Record raster : Type := {
  raster_properties : gmap string (value num);
  raster_time_start : Z;
  raster_footprint : Geometry num → bool;
  raster_bands : list (string * (Geometry num → num → option num))
}.

(** Modelled from the spec: the catalogue behind the service, which is not
    under src/. A catalog address selects a collection of images; dates are
    parsed by the service. *)
Record Catalog : Type := {
  assets : gmap string (list raster);
  parse_date : string → option Z
}.

Fixpoint mapM {A B} (f : A → result B) (l : list A) : result (list B) :=
  match l with
  | [] => Ok []
  | a :: rest => b ←? f a; bs ←? mapM f rest; Ok (b :: bs)
  end.

(** Modelled from the spec: the service's lookup of a band by name (the
    first band of that name), not under src/. *)
Fixpoint find_band {P} (name : string) (bands : list (string * P)) : option P :=
  match bands with
  | [] => None
  | (n, p) :: rest => if decide (n = name) then Some p else find_band name rest
  end.

(** Modelled from the spec: the service's [image.select(names)], not under
    src/. It keeps the named bands, in the order asked for; a name the image
    does not have is an error. *)
Definition select_bands (names : list string) (im : raster) : result raster :=
  bs ←? mapM (λ name,
          match find_band name (raster_bands im) with
          | Some p => Ok (name, p)
          | None => Err (EEException "Image.select: band pattern did not match any bands")
          end) names;
  Ok {| raster_properties := raster_properties im;
        raster_time_start := raster_time_start im;
        raster_footprint := raster_footprint im;
        raster_bands := bs |}.

(** Modelled from the spec: the service's cloud-cover filter, not under
    src/. [filterMetadata(name, 'less_than', v)] keeps the images whose
    property is a number below [v]; an image without it is dropped. *)
Definition metadata_less_than (name : string) (v : num) (im : raster) : bool :=
  match raster_properties im !! name with
  | Some (VNum x) => num_lt x v
  | _ => false
  end.

(** Modelled from the spec: the service's date-range filter, not under src/.
    The start of the range is included, its end is not. *)
Definition in_date_range (start stop : Z) (im : raster) : bool :=
  bool_decide (start ≤ raster_time_start im)%Z
  && bool_decide (raster_time_start im < stop)%Z.

(** Modelled from the spec: the service's evaluation of a collection query
    (catalog address, band selection, point, date range, cloud-cover
    ceiling), not under src/. Filters keep the order of the collection. *)
Fixpoint eval_collection (cat : Catalog) (c : ImageCollection num)
  : result (list raster) :=
  match c with
  | Collection address =>
      match assets cat !! address with
      | Some ims => Ok ims
      | None => Err (EEException "ImageCollection.load: asset not found")
      end
  | select c names =>
      ims ←? eval_collection cat c; mapM (select_bands names) ims
  | filterBounds c g =>
      ims ←? eval_collection cat c;
      Ok (List.filter (λ im, raster_footprint im g) ims)
  | filterDate c (MkDate start) (MkDate stop) =>
      ims ←? eval_collection cat c;
      match parse_date cat start, parse_date cat stop with
      | Some t0, Some t1 => Ok (List.filter (in_date_range t0 t1) ims)
      | _, _ => Err (EEException "Date: unable to parse")
      end
  | filterMetadata c name operator v =>
      ims ←? eval_collection cat c;
      if decide (operator = "less_than")
      then Ok (List.filter (metadata_less_than name v) ims)
      else Err (EEException "Filter.metadata: operator outside this model")
  end.

(** Modelled from the spec: the service's [size()] and [toList(count)], not
    under src/. *)
Fixpoint eval_number (cat : Catalog) (n : Number num) : result nat :=
  match n with
  | size c => ims ←? eval_collection cat c; Ok (length ims)
  | list_size l => ims ←? eval_list cat l; Ok (length ims)
  end
with eval_list (cat : Catalog) (l : EEList num) : result (list raster) :=
  match l with
  | toList c count =>
      ims ←? eval_collection cat c;
      n ←? eval_number cat count;
      Ok (take n ims)
  end.

(** Modelled from the spec: the service's arithmetic on an image, not under
    src/. An operation with a constant acts on every band alike. *)
Definition map_bands (f : num → num) (im : raster) : raster :=
  {| raster_properties := raster_properties im;
     raster_time_start := raster_time_start im;
     raster_footprint := raster_footprint im;
     raster_bands :=
       map (λ '(name, p), (name, λ g s, f <$> p g s)) (raster_bands im) |}.

(** Modelled from the spec: the service's evaluation of an image expression
    ([list.get(i)], [multiply], [add]), not under src/. *)
Fixpoint eval_image (cat : Catalog) (im : Image num) : result raster :=
  match im with
  | get l i =>
      ims ←? eval_list cat l;
      match ims !! i with
      | Some r => Ok r
      | None => Err (EEException "List.get: index out of bounds")
      end
  | multiply im v =>
      r ←? eval_image cat im;
      match v with
      | VNum m => Ok (map_bands (λ x, num_mul x m) r)
      | _ => Err (EEException "Image.multiply: not a number")
      end
  | add im v =>
      r ←? eval_image cat im;
      match v with
      | VNum a => Ok (map_bands (λ x, num_add x a) r)
      | _ => Err (EEException "Image.add: not a number")
      end
  end.

(** Modelled from the spec: the service's point sampling, not under src/.
    It reads all bands under one point, or nothing when any is masked. *)
Fixpoint sample_bands (bands : list (string * (Geometry num → num → option num)))
  (g : Geometry num) (scale : num) : option (list (string * value num)) :=
  match bands with
  | [] => Some []
  | (name, p) :: rest =>
      match p g scale, sample_bands rest g scale with
      | Some x, Some vs => Some ((name, VNum x) :: vs)
      | _, _ => None
      end
  end.

(** Modelled from the spec: the feature the service makes of one sampled
    point, not under src/: one property per band. *)
Definition sample_point (r : raster) (scale : num) (g : Geometry num)
  : option (FeatureInfo num) :=
  vs ← sample_bands (raster_bands r) g scale;
  Some {| feature_properties := list_to_map vs |}.

(** Modelled from the spec: the service's [sampleRegions], not under src/.
    It yields one feature per region whose pixel is unmasked. *)
Definition eval_features (cat : Catalog) (fc : FeatureCollection num)
  : result (list (FeatureInfo num)) :=
  match fc with
  | sampleRegions im regions scale _ =>
      r ←? eval_image cat im;
      Ok (omap (sample_point r scale) regions)
  end.

(** Modelled from the spec: the catalogue service as a whole, not under
    src/, answering the three kinds of [getInfo] the function makes. *)
Definition ee_service (cat : Catalog) : Service num :=
  {| getInfo_number := eval_number cat;
     getInfo_image := λ im,
       r ←? eval_image cat im; Ok {| properties := raster_properties r |};
     getInfo_features := eval_features cat |}.

(** Modelled from the spec: the raw value of a band, the pixel of the first
    band of that name of a catalogue image under a point. *)
Definition raw_value (im : raster) (name : string) (g : Geometry num)
  (scale : num) : option num :=
  p ← find_band name (raster_bands im); p g scale.

(** The linear correction of source line 94. *)
Definition corrected (m a : num) (raw : num) : num :=
  num_add (num_mul raw m) a.

End Reference.
Arguments raster num : clear implicits.
Arguments Catalog num : clear implicits.

(** ** Vocabulary of the statements *)

Section Vocabulary.
Context {num : Type}.

(** Sequencing of outcomes: the second program runs only if the first one
    returned. *)
Definition then_run {A B} (o : outcome num A)
  (k : gmap loc (list string) → A → outcome num B) : outcome num B :=
  match returned o with
  | Ok a =>
      let o' := k (final_heap o) a in
      {| trace := trace o ++ trace o'; final_heap := final_heap o';
         returned := returned o' |}
  | Err e => {| trace := trace o; final_heap := final_heap o; returned := Err e |}
  end.

(** Programs that never write to the heap. *)
Inductive readonly {A} : prog num A → Prop :=
| readonly_Ret a : readonly (Ret a)
| readonly_Raise e : readonly (Raise e)
| readonly_Load l k : (∀ v, readonly (k v)) → readonly (Load l k)
| readonly_GetNumber q k : (∀ n, readonly (k n)) → readonly (GetNumber q k)
| readonly_GetImage q k : (∀ i, readonly (k i)) → readonly (GetImage q k)
| readonly_GetFeatures q k : (∀ fs, readonly (k fs)) → readonly (GetFeatures q k).

(** Two services that answer every request alike. *)
Definition same_answers (s1 s2 : Service num) : Prop :=
  (∀ q, getInfo_number s1 q = getInfo_number s2 q)
  ∧ (∀ q, getInfo_image s1 q = getInfo_image s2 q)
  ∧ (∀ q, getInfo_features s1 q = getInfo_features s2 q).

(** The four metadata fields of source lines 88-91. *)
Definition metadata_fields : list string :=
  ["DATE_ACQUIRED"; "CLOUD_COVER"; "REFLECTANCE_MULT_BAND_2";
   "REFLECTANCE_ADD_BAND_2"].

Definition table_columns (bands : list string) : list string :=
  ["Date"; "Coordinate"] ++ bands ++ ["CloudCover"].

(** The dict literal of source lines 105-109. *)
Definition data_row_literal (coordinate date cloud_cover : value num)
  : gmap string (value num) :=
  <["CloudCover":=cloud_cover]> (<["Date":=date]>
    (<["Coordinate":=coordinate]> ∅)).

(** The value of [point['coordinates']]. *)
Definition coordinates (g : Geometry num) : value num :=
  match g with
  | Point lon lat => VList [VNum lon; VNum lat]
  end.

(** The row a table with columns [cols] receives from a dict. *)
Definition row_of (cols : list string) (data_row : gmap string (value num))
  : list (value num) :=
  map (λ c, default VNaN (data_row !! c)) cols.

(** The sampling request the loop makes for the [i]-th image, given the two
    coefficients read from its metadata. *)
Definition sample_request (point_of_interest : Geometry num) (scale : num)
  (image_list : EEList num) (i : nat) (M A : value num)
  : FeatureCollection num :=
  sampleRegions (add (multiply (get image_list i) M) A) [point_of_interest]
    scale true.

(** [block] is what image [i] contributes to the table: the service's
    metadata answer has the four fields, its sampling answer lists the
    features, and every feature has a value for every band and yields one
    row. *)
Definition image_block (srv : Service num) (point_of_interest : Geometry num)
  (bands : list string) (scale : num) (image_list : EEList num) (i : nat)
  (block : list (list (value num))) : Prop :=
  ∃ info date cloud_cover M A features,
    getInfo_image srv (get image_list i) = Ok info
    ∧ properties info !! "DATE_ACQUIRED" = Some date
    ∧ properties info !! "CLOUD_COVER" = Some cloud_cover
    ∧ properties info !! "REFLECTANCE_MULT_BAND_2" = Some M
    ∧ properties info !! "REFLECTANCE_ADD_BAND_2" = Some A
    ∧ getInfo_features srv
        (sample_request point_of_interest scale image_list i M A) = Ok features
    ∧ Forall2 (λ feature row,
         ∃ data_row,
           band_loop bands (feature_properties feature)
             (data_row_literal (coordinates point_of_interest) date
                cloud_cover) = Ok data_row
           ∧ row = row_of (table_columns bands) data_row)
        features block.

(** [o] ends in the [KeyError] of a missing field whenever one of its
    metadata answers lacks a field. *)
Definition stops_at_missing_field {A} (o : outcome num A) : Prop :=
  ∀ q info key,
    EvImage q (Ok info) ∈ trace o → key ∈ metadata_fields →
    properties info !! key = None →
    ∃ key', key' ∈ metadata_fields ∧ properties info !! key' = None
            ∧ returned o = Err (KeyError key').

End Vocabulary.

Section ReferenceVocabulary.
Context {num : Type} `{!Numeric num}.

(** The facts about one matching image and its rows that the end-to-end
    statements draw on. *)
Definition reference_block (pt : Geometry num) (bs : list string)
  (mcc scale : num) (im : raster num) (block : list (list (value num)))
  : Prop :=
  ∃ date cc m a,
    raster_properties im !! "DATE_ACQUIRED" = Some date
    ∧ raster_properties im !! "CLOUD_COVER" = Some (VNum cc)
    ∧ num_lt cc mcc = true
    ∧ raster_properties im !! "REFLECTANCE_MULT_BAND_2" = Some (VNum m)
    ∧ raster_properties im !! "REFLECTANCE_ADD_BAND_2" = Some (VNum a)
    ∧ length block ≤ 1
    ∧ ∀ row, row ∈ block →
        ∃ d, row = row_of (table_columns bs) d
          ∧ (∀ k, d !! k =
               if decide (k ∈ bs)
               then VNum <$> (corrected m a <$> raw_value im k pt scale)
               else data_row_literal (coordinates pt) date (VNum cc) !! k)
          ∧ (∀ band, band ∈ bs →
               ∃ raw, raw_value im band pt scale = Some raw).

End ReferenceVocabulary.

(** ** Vocabulary of the further properties *)

Section RoundTrips.
Context {num : Type}.

(** [seg] is the pair of round trips the loop makes for image [i]: the
    metadata of [image_list.get(i)], then the sample of that image corrected
    with the two coefficients found in that metadata (source lines 87-101). *)
Definition image_round_trips (srv : Service num)
  (point_of_interest : Geometry num) (scale : num) (image_list : EEList num)
  (i : nat) (seg : list (event num)) : Prop :=
  ∃ info M A features,
    properties info !! "REFLECTANCE_MULT_BAND_2" = Some M
    ∧ properties info !! "REFLECTANCE_ADD_BAND_2" = Some A
    ∧ seg = [EvImage (get image_list i) (Ok info);
             EvFeatures (sample_request point_of_interest scale image_list i M A)
               (Ok features)].

(** Programs that touch no list object but the one at [l], and only read
    it. *)
Inductive loads_only (l : loc) {A} : prog num A → Prop :=
| loads_only_Ret a : loads_only l (Ret a)
| loads_only_Raise e : loads_only l (Raise e)
| loads_only_Load k : (∀ v, loads_only l (k v)) → loads_only l (Load l k)
| loads_only_GetNumber q k :
    (∀ n, loads_only l (k n)) → loads_only l (GetNumber q k)
| loads_only_GetImage q k :
    (∀ i, loads_only l (k i)) → loads_only l (GetImage q k)
| loads_only_GetFeatures q k :
    (∀ fs, loads_only l (k fs)) → loads_only l (GetFeatures q k).

(** The answers under which the loop over [m] listed images runs to its end:
    every image has its four metadata fields, its sample is answered, and
    every sampled feature has a value for every requested band. *)
Definition well_answered (srv : Service num) (point_of_interest : Geometry num)
  (bands : list string) (scale : num) (image_list : EEList num) (m : nat)
  : Prop :=
  ∀ i, i < m →
    ∃ info date cloud_cover M A features,
      getInfo_image srv (get image_list i) = Ok info
      ∧ properties info !! "DATE_ACQUIRED" = Some date
      ∧ properties info !! "CLOUD_COVER" = Some cloud_cover
      ∧ properties info !! "REFLECTANCE_MULT_BAND_2" = Some M
      ∧ properties info !! "REFLECTANCE_ADD_BAND_2" = Some A
      ∧ getInfo_features srv
          (sample_request point_of_interest scale image_list i M A)
        = Ok features
      ∧ ∀ feature band, feature ∈ features → band ∈ bands →
          is_Some (feature_properties feature !! band).

(** A failed outcome is explained when its exception is that of a failed
    round trip of the run, or the [KeyError] of a metadata field or of a
    requested band. *)
Definition explained (bands : list string) {A} (o : outcome num A) : Prop :=
  ∀ e, returned o = Err e →
    (∃ ev, ev ∈ trace o ∧ event_error ev = Some e)
    ∨ (∃ key, e = KeyError key ∧ (key ∈ metadata_fields ∨ key ∈ bands)).

End RoundTrips.

(** ** Concrete catalogues

    Integers stand for the numbers, and a few small catalogues exercise the
    function: scenes listed out of chronological order, a scene that is too
    cloudy, a scene whose pixel is masked under the point, and a collection
    whose bands are named like columns of the table. *)

#[export] Instance Numeric_Z : Numeric Z :=
  {| num_mul := Z.mul;
     num_add := Z.add;
     num_lt := Z.ltb;
     num_lt_asym := ltac:(intros x y; rewrite Z.ltb_lt, Z.ltb_ge; lia) |}.

Definition flat (v : Z) : Geometry Z → Z → option Z := λ _ _, Some v.
Definition masked : Geometry Z → Z → option Z := λ _ _, None.

Definition scene (date : string) (day cloud mult addend : Z)
  (bands : list (string * (Geometry Z → Z → option Z))) : raster Z :=
  {| raster_properties :=
       <["DATE_ACQUIRED":=VStr date]> (<["CLOUD_COVER":=VNum cloud]>
         (<["REFLECTANCE_MULT_BAND_2":=VNum mult]>
           (<["REFLECTANCE_ADD_BAND_2":=VNum addend]> ∅)));
     raster_time_start := day;
     raster_footprint := λ _, true;
     raster_bands := bands |}.

(** Days of 2022 for the two dates the examples use. *)
Definition calendar (s : string) : option Z :=
  if decide (s = "2022-01-01") then Some 0%Z
  else if decide (s = "2022-12-31") then Some 364%Z
  else None.

Definition march_scene : raster Z :=
  scene "2022-03-10" 68 3 2 1
    [("SR_B5", flat 999); ("SR_B4", flat 100); ("SR_B3", flat 200);
     ("SR_B2", flat 300)].
Definition february_scene : raster Z :=
  scene "2022-02-01" 31 7 3 0
    [("SR_B2", flat 30); ("SR_B3", flat 20); ("SR_B4", flat 10)].
Definition cloudy_scene : raster Z :=
  scene "2022-05-05" 124 50 2 1
    [("SR_B4", flat 1); ("SR_B3", flat 1); ("SR_B2", flat 1)].
Definition masked_scene : raster Z :=
  scene "2022-06-06" 156 1 2 1
    [("SR_B4", masked); ("SR_B3", flat 5); ("SR_B2", flat 6)].
Definition odd_scene : raster Z :=
  scene "2022-07-07" 187 5 1 0
    [("Coordinate", flat 42); ("CloudCover", flat 99)].

Definition catalogue : Catalog Z :=
  {| assets :=
       <["LANDSAT/LC08/C02/T1_L2":=[march_scene; february_scene; cloudy_scene]]>
         (<["masked":=[masked_scene]]> (<["odd":=[odd_scene]]> ∅));
     parse_date := calendar |}.

(** A heap with the default list and two lists a caller built. *)
Definition example_heap : gmap loc (list string) :=
  <[3%positive:=["CloudCover"]]> (<[2%positive:=["Coordinate"]]>
    heap_at_definition).

(** A service that is down. *)
Definition unreachable : Service Z :=
  {| getInfo_number := λ _, Err (OtherException "ConnectionError" "unreachable");
     getInfo_image := λ _, Err (OtherException "ConnectionError" "unreachable");
     getInfo_features := λ _, Err (OtherException "ConnectionError" "unreachable") |}.

(** A call for one point and the year 2022, at scale 30. *)
Definition example_call (collection_address : string) (bands : loc)
  (max_cloud_cover : Z) : prog Z (DataFrame Z) :=
  Landsat_Surface_Reflectance (-122)%Z 37%Z "2022-01-01" "2022-12-31"
    collection_address bands max_cloud_cover 30%Z.

Definition example_query (collection_address : string) (bands : loc)
  (max_cloud_cover : Z) : ImageCollection Z :=
  landsat_query (Point (-122)%Z 37%Z) "2022-01-01" "2022-12-31"
    collection_address (example_heap !!! bands) max_cloud_cover.

(** The two scenes of the default collection that pass a threshold of 10,
    as the query selects them, and the table the call returns for them. *)
Definition example_matching : list (raster Z) :=
  [scene "2022-03-10" 68 3 2 1
     [("SR_B4", flat 100); ("SR_B3", flat 200); ("SR_B2", flat 300)];
   scene "2022-02-01" 31 7 3 0
     [("SR_B4", flat 10); ("SR_B3", flat 20); ("SR_B2", flat 30)]].

Definition example_table : DataFrame Z :=
  {| columns := ["Date"; "Coordinate"; "SR_B4"; "SR_B3"; "SR_B2"; "CloudCover"];
     rows :=
       [[VStr "2022-03-10"; VList [VNum (-122)%Z; VNum 37%Z];
         VNum 201%Z; VNum 401%Z; VNum 601%Z; VNum 3%Z];
        [VStr "2022-02-01"; VList [VNum (-122)%Z; VNum 37%Z];
         VNum 30%Z; VNum 60%Z; VNum 90%Z; VNum 7%Z]] |}.

(** A service whose collection changes between the two size requests: it
    reports one image, then lists none. *)
Definition stale_service : Service Z :=
  {| getInfo_number := λ q,
       match q with
       | size _ => Ok 1
       | list_size _ => Ok 0
       end;
     getInfo_image := λ _, Err (EEException "List.get: index out of bounds");
     getInfo_features := λ _, Ok [] |}.

(** A scene without the additive coefficient, in a catalogue of its own. *)
Definition bare_scene : raster Z :=
  {| raster_properties :=
       <["DATE_ACQUIRED":=VStr "2022-08-08"]> (<["CLOUD_COVER":=VNum 2%Z]>
         (<["REFLECTANCE_MULT_BAND_2":=VNum 2%Z]> ∅));
     raster_time_start := 219;
     raster_footprint := λ _, true;
     raster_bands :=
       [("SR_B4", flat 1); ("SR_B3", flat 2); ("SR_B2", flat 3)] |}.

Definition bare_catalogue : Catalog Z :=
  {| assets := <["bare":=[bare_scene]]> ∅; parse_date := calendar |}.

(** A scene whose acquisition date is null in its metadata, in a catalogue
    of its own. *)
Definition undated_scene : raster Z :=
  {| raster_properties :=
       <["DATE_ACQUIRED":=VNone]> (<["CLOUD_COVER":=VNum 4%Z]>
         (<["REFLECTANCE_MULT_BAND_2":=VNum 2%Z]>
           (<["REFLECTANCE_ADD_BAND_2":=VNum 1%Z]> ∅)));
     raster_time_start := 250;
     raster_footprint := λ _, true;
     raster_bands :=
       [("SR_B4", flat 1); ("SR_B3", flat 2); ("SR_B2", flat 3)] |}.

Definition undated_catalogue : Catalog Z :=
  {| assets := <["undated":=[undated_scene]]> ∅; parse_date := calendar |}.

(** A heap where the caller asks for the same band twice. *)
Definition repeated_heap : gmap loc (list string) :=
  <[4%positive:=["SR_B4"; "SR_B4"]]> example_heap.

(** The same heap with another list at the location of the caller's
    second list. *)
Definition other_heap : gmap loc (list string) :=
  <[2%positive:=["SR_B5"]]> example_heap.

(** * Properties *)

(** ** The program monad *)

Section Monad.
Context {num : Type}.
Implicit Types (srv : Service num) (h : gmap loc (list string)).

Lemma run_bind {A B} srv h (p : prog num A) (f : A → prog num B) :
  run srv h (bind p f) = then_run (run srv h p) (λ h' a, run srv h' (f a)).
Proof.
  revert h. induction p as [a|e|l k IH|l v k IH|q k IH|q k IH|q k IH];
    intros h; simpl.
  - unfold then_run; simpl. by destruct (run srv h (f a)).
  - done.
  - apply IH.
  - apply IH.
  - destruct (getInfo_number srv q) as [n|e]; [|done].
    rewrite IH. unfold then_run; simpl. by destruct (returned (run srv h (k n))).
  - destruct (getInfo_image srv q) as [n|e]; [|done].
    rewrite IH. unfold then_run; simpl. by destruct (returned (run srv h (k n))).
  - destruct (getInfo_features srv q) as [n|e]; [|done].
    rewrite IH. unfold then_run; simpl. by destruct (returned (run srv h (k n))).
Qed.

Lemma run_lift {A} srv h (r : result A) :
  run srv h (lift r) = {| trace := []; final_heap := h; returned := r |}.
Proof. by destruct r. Qed.

Lemma readonly_bind {A B} (p : prog num A) (f : A → prog num B) :
  readonly p → (∀ a, readonly (f a)) → readonly (bind p f).
Proof. intros Hp Hf. induction Hp; simpl; try by constructor. apply Hf. Qed.

Lemma readonly_lift {A} (r : result A) : readonly (lift (num:=num) r).
Proof. destruct r; constructor. Qed.

Lemma readonly_frame {A} srv h (p : prog num A) :
  readonly p → final_heap (run srv h p) = h.
Proof.
  intros Hp. induction Hp as [a|e|l k _ IH|q k _ IH|q k _ IH|q k _ IH]; simpl;
    try done.
  - destruct (getInfo_number srv q); simpl; auto.
  - destruct (getInfo_image srv q); simpl; auto.
  - destruct (getInfo_features srv q); simpl; auto.
Qed.

(** Equal answers, equal runs. *)
Lemma run_same_answers {A} (s1 s2 : Service num) h (p : prog num A) :
  same_answers s1 s2 → run s1 h p = run s2 h p.
Proof.
  intros (Hn & Hi & Hf). revert h.
  induction p as [a|e|l k IH|l v k IH|q k IH|q k IH|q k IH]; intros h; simpl;
    try done.
  - rewrite Hn. destruct (getInfo_number s2 q); [by rewrite IH|done].
  - rewrite Hi. destruct (getInfo_image s2 q); [by rewrite IH|done].
  - rewrite Hf. destruct (getInfo_features s2 q); [by rewrite IH|done].
Qed.

(** No handler exists in the language: a failed round trip is the last event
    of the trace and its exception is what the run returns. *)
Lemma run_error_last {A} srv h (p : prog num A) ev e :
  ev ∈ trace (run srv h p) → event_error ev = Some e →
  returned (run srv h p) = Err e ∧ last (trace (run srv h p)) = Some ev.
Proof.
  revert h. induction p as [a|e'|l k IH|l v k IH|q k IH|q k IH|q k IH];
    intros h; simpl.
  - by intros ?%elem_of_nil.
  - by intros ?%elem_of_nil.
  - apply IH.
  - apply IH.
  - destruct (getInfo_number srv q) as [n|e0]; simpl.
    + intros [->|Hin]%elem_of_cons He; [done|].
      destruct (IH n h Hin He) as [-> Hl]. split; [done|].
      destruct (trace (run srv h (k n))); [by apply elem_of_nil in Hin|done].
    + intros ->%list_elem_of_singleton [= ->]. done.
  - destruct (getInfo_image srv q) as [n|e0]; simpl.
    + intros [->|Hin]%elem_of_cons He; [done|].
      destruct (IH n h Hin He) as [-> Hl]. split; [done|].
      destruct (trace (run srv h (k n))); [by apply elem_of_nil in Hin|done].
    + intros ->%list_elem_of_singleton [= ->]. done.
  - destruct (getInfo_features srv q) as [n|e0]; simpl.
    + intros [->|Hin]%elem_of_cons He; [done|].
      destruct (IH n h Hin He) as [-> Hl]. split; [done|].
      destruct (trace (run srv h (k n))); [by apply elem_of_nil in Hin|done].
    + intros ->%list_elem_of_singleton [= ->]. done.
Qed.

End Monad.

(** ** The table operations *)

Section Table.
Context {num : Type}.
Implicit Types (df : DataFrame num) (d : gmap string (value num)).

Lemma empty_loop_rows range cols (rs : list (list (value num))) :
  rs = [] ∨ rs = [replicate (length cols) VNone] →
  empty_loop range {| columns := cols; rows := rs |}
  = Ok {| columns := cols;
          rows := match range with
                  | [] => rs
                  | _ => [replicate (length cols) VNone]
                  end |}.
Proof.
  revert rs. induction range as [|i range IH]; intros rs Hrs; [done|].
  simpl. unfold loc_setitem; simpl.
  rewrite length_replicate, decide_True by done. simpl.
  rewrite IH by (right; by destruct Hrs as [->| ->]).
  destruct range; [|done]. by destruct Hrs as [->| ->].
Qed.

Lemma filter_none {A} (P : A → Prop) `{!∀ x, Decision (P x)} (l : list A) :
  (∀ x, x ∈ l → ¬ P x) → filter P l = [].
Proof.
  induction l as [|x l IH]; intros Hl; [done|].
  rewrite filter_cons_False by (apply Hl; left).
  apply IH. intros y Hy. apply Hl. by right.
Qed.

(** Appending a dict whose keys are all columns adds one row and nothing
    else. *)
Lemma append_known_keys df d :
  NoDup (columns df) →
  (∀ k, is_Some (d !! k) → k ∈ columns df) →
  append df d = Ok {| columns := columns df;
                      rows := rows df ++ [row_of (columns df) d] |}.
Proof.
  intros Hnodup Hk. unfold append. rewrite decide_True by done.
  rewrite filter_none.
  - simpl. rewrite app_nil_r. do 3 f_equal.
    rewrite <- (map_id (rows df)) at 2. apply map_ext. intros r.
    by rewrite app_nil_r.
  - intros k Hin Hk'. apply Hk'. apply Hk.
    apply list_elem_of_fmap in Hin as [[k' v] [-> Hin]].
    apply elem_of_map_to_list in Hin. simpl. eauto.
Qed.

(** Appending to a table with a repeated column label fails. *)
Lemma append_Ok_NoDup df d df' : append df d = Ok df' → NoDup (columns df).
Proof. unfold append. by destruct (decide (NoDup (columns df))). Qed.

Lemma table_columns_NoDup (bs : list string) :
  NoDup (table_columns bs) →
  NoDup bs ∧ ("Date" ∉ bs) ∧ ("Coordinate" ∉ bs) ∧ ("CloudCover" ∉ bs).
Proof.
  unfold table_columns. simpl. intros H.
  apply NoDup_cons in H as [Hdate H]. apply NoDup_cons in H as [Hcoord H].
  apply NoDup_app in H as (Hbs & Hdisj & _).
  repeat split; [done| | |].
  - intros Hin. apply Hdate. right. apply elem_of_app. by left.
  - intros Hin. apply Hcoord. apply elem_of_app. by left.
  - intros Hin. apply (Hdisj _ Hin). by left.
Qed.

Lemma band_loop_lookup bands props d d' :
  band_loop bands props d = Ok d' →
  ∀ k, d' !! k = if decide (k ∈ bands) then props !! k else d !! k.
Proof.
  revert d. induction bands as [|b bands IH]; intros d H k; simpl in H.
  - injection H as <-. rewrite decide_False; [done|apply not_elem_of_nil].
  - unfold getitem in H. destruct (props !! b) as [v|] eqn:Hb; [|done].
    simpl in H. rewrite (IH _ H k).
    destruct (decide (k ∈ bands)) as [Hin|Hnin].
    + rewrite decide_True; [done|by right].
    + destruct (decide (k = b)) as [->|Hne].
      * rewrite decide_True by left. by rewrite lookup_insert_eq.
      * rewrite decide_False.
        -- by rewrite lookup_insert_ne.
        -- by intros [?|?]%elem_of_cons.
Qed.

Lemma band_loop_present bands props d d' :
  band_loop bands props d = Ok d' →
  ∀ band, band ∈ bands → ∃ v, props !! band = Some v ∧ d' !! band = Some v.
Proof.
  intros H band Hin. pose proof (band_loop_lookup _ _ _ _ H band) as Hl.
  rewrite decide_True in Hl by done.
  revert d H Hl. induction bands as [|b bands IH]; intros d H Hl.
  - by apply elem_of_nil in Hin.
  - simpl in H. unfold getitem in H.
    destruct (props !! b) as [v|] eqn:Hb; [|done]. simpl in H.
    apply elem_of_cons in Hin as [->|Hin].
    + exists v. by rewrite Hl.
    + eapply IH; eauto.
Qed.

Lemma band_loop_total (bs : list string) (props : gmap string (value num)) d :
  (∀ band, band ∈ bs → is_Some (props !! band)) →
  ∃ d', band_loop bs props d = Ok d'.
Proof.
  revert d. induction bs as [|b bs IH]; intros d Hall; simpl; [by eexists|].
  destruct (Hall b) as [v Hv]; [by left|].
  unfold getitem. rewrite Hv. simpl. apply IH.
  intros band Hband. apply Hall. by right.
Qed.

Lemma data_row_literal_keys (c date cc : value num) k :
  is_Some (data_row_literal c date cc !! k) →
  k = "CloudCover" ∨ k = "Date" ∨ k = "Coordinate".
Proof.
  unfold data_row_literal. intros [v Hv].
  destruct (decide (k = "CloudCover")); [by left|].
  destruct (decide (k = "Date")); [by right; left|].
  destruct (decide (k = "Coordinate")); [by right; right|].
  by rewrite !lookup_insert_ne, lookup_empty in Hv.
Qed.

Lemma band_loop_keys bands props c date cc d' :
  band_loop bands props (data_row_literal c date cc) = Ok d' →
  ∀ k, is_Some (d' !! k) → k ∈ table_columns bands.
Proof.
  intros H k Hk. rewrite (band_loop_lookup _ _ _ _ H k) in Hk.
  unfold table_columns.
  destruct (decide (k ∈ bands)) as [Hin|_].
  - apply elem_of_app. right. apply elem_of_app. by left.
  - apply data_row_literal_keys in Hk as [-> | [-> | ->]].
    + apply elem_of_app. right. apply elem_of_app. right. by left.
    + by left.
    + right. by left.
Qed.

End Table.

(** ** Running the function *)

Section Run.
Context {num : Type}.
Implicit Types (srv : Service num) (h : gmap loc (list string))
  (df : DataFrame num).

Lemma Geometry_getitem_coordinates (g : Geometry num) :
  Geometry_getitem g "coordinates" = Ok (coordinates g).
Proof. by destruct g. Qed.

Lemma feature_body_run srv h pt bands date cc f df :
  run srv h (feature_body pt bands date cc f df)
  = {| trace := []; final_heap := h;
       returned :=
         d ←? band_loop (h !!! bands) (feature_properties f)
                (data_row_literal (coordinates pt) date cc);
         append df d |}.
Proof.
  unfold feature_body. rewrite Geometry_getitem_coordinates. simpl.
  unfold data_row_literal.
  destruct (band_loop _ _ _) as [d|]; simpl; [|done].
  by destruct (append df _).
Qed.

Lemma feature_loop_run srv h pt bands date cc fs df :
  trace (run srv h (feature_loop pt bands date cc fs df)) = []
  ∧ final_heap (run srv h (feature_loop pt bands date cc fs df)) = h.
Proof.
  revert df. induction fs as [|f fs IH]; intros df; [done|].
  cbn [feature_loop]. rewrite run_bind, feature_body_run. unfold then_run; simpl.
  destruct (band_loop _ _ _) as [d|]; simpl; [|done].
  destruct (append df d); simpl; [apply IH|done].
Qed.

Lemma feature_loop_returned srv h pt bands date cc fs df df' :
  returned (run srv h (feature_loop pt bands date cc fs df)) = Ok df' →
  columns df = table_columns (h !!! bands) →
  ∃ block,
    df' = {| columns := columns df; rows := rows df ++ block |}
    ∧ Forall2 (λ f row,
         ∃ d, band_loop (h !!! bands) (feature_properties f)
                (data_row_literal (coordinates pt) date cc) = Ok d
              ∧ row = row_of (table_columns (h !!! bands)) d)
        fs block
    ∧ (block ≠ [] → NoDup (columns df)).
Proof.
  revert df. induction fs as [|f fs IH]; intros df; cbn [feature_loop].
  - intros [= <-] _. exists []. rewrite app_nil_r.
    split; [by destruct df|]. by split; [constructor|].
  - rewrite run_bind, feature_body_run. unfold then_run; simpl.
    destruct (band_loop _ _ _) as [d|e] eqn:Hd; simpl; [|done].
    destruct (append df d) as [df1|e] eqn:Happ; simpl; [|done].
    pose proof (append_Ok_NoDup _ _ _ Happ) as Hnodup.
    intros Hret Hcols.
    rewrite append_known_keys in Happ
      by (try done; rewrite Hcols; eapply band_loop_keys; eauto).
    injection Happ as <-.
    apply IH in Hret as (block & -> & Hblock & _); [|done]. simpl.
    exists (row_of (columns df) d :: block). split; [|split; [|done]].
    + by rewrite <- app_assoc.
    + constructor; [|done]. exists d. by rewrite Hcols.
Qed.

Lemma readonly_feature_loop pt bands date cc fs df :
  readonly (feature_loop (num:=num) pt bands date cc fs df).
Proof.
  revert df. induction fs as [|f fs IH]; intros df; cbn [feature_loop];
    [constructor|].
  apply readonly_bind; [|done]. unfold feature_body.
  apply readonly_bind; [apply readonly_lift|]. intros c. simpl.
  constructor. intros bs. apply readonly_bind; [apply readonly_lift|].
  intros d. apply readonly_lift.
Qed.

Lemma readonly_image_body pt bands scale il i df :
  readonly (image_body (num:=num) pt bands scale il i df).
Proof.
  unfold image_body. simpl. constructor. intros info.
  repeat (apply readonly_bind; [apply readonly_lift|]; intros ?).
  simpl. constructor. intros fs. apply readonly_feature_loop.
Qed.

Lemma readonly_image_loop pt bands scale il range df :
  readonly (image_loop (num:=num) pt bands scale il range df).
Proof.
  revert df. induction range as [|i range IH]; intros df; cbn [image_loop];
    [constructor|].
  apply readonly_bind; [apply readonly_image_body|done].
Qed.

Lemma readonly_Landsat_Surface_Reflectance lon lat sd ed addr bands mcc scale :
  readonly (Landsat_Surface_Reflectance (num:=num) lon lat sd ed addr bands
              mcc scale).
Proof.
  unfold Landsat_Surface_Reflectance. simpl. constructor. intros bs.
  constructor. intros n. destruct (decide (n = 0)); simpl.
  - constructor. intros bs'. apply readonly_lift.
  - constructor. intros bs'. constructor. intros m. apply readonly_image_loop.
Qed.

Lemma image_body_returned srv h pt bands scale il i df df' :
  returned (run srv h (image_body pt bands scale il i df)) = Ok df' →
  columns df = table_columns (h !!! bands) →
  ∃ block,
    image_block srv pt (h !!! bands) scale il i block
    ∧ df' = {| columns := columns df; rows := rows df ++ block |}
    ∧ (block ≠ [] → NoDup (columns df)).
Proof.
  unfold image_body. simpl.
  destruct (getInfo_image srv (get il i)) as [info|e] eqn:Hinfo; simpl; [|done].
  unfold getitem.
  destruct (properties info !! "DATE_ACQUIRED") as [date|] eqn:Hdate;
    simpl; [|done].
  destruct (properties info !! "CLOUD_COVER") as [cc|] eqn:Hcc; simpl; [|done].
  destruct (properties info !! "REFLECTANCE_MULT_BAND_2") as [M|] eqn:HM;
    simpl; [|done].
  destruct (properties info !! "REFLECTANCE_ADD_BAND_2") as [A|] eqn:HA;
    simpl; [|done].
  destruct (getInfo_features srv _) as [fs|e] eqn:Hfs; simpl; [|done].
  intros Hret Hcols.
  apply feature_loop_returned in Hret as (block & -> & Hblock & Hnodup);
    [|done].
  exists block. split; [|done].
  exists info, date, cc, M, A, fs. by repeat split.
Qed.

Lemma image_loop_returned srv h pt bands scale il range df df' :
  returned (run srv h (image_loop pt bands scale il range df)) = Ok df' →
  columns df = table_columns (h !!! bands) →
  ∃ blocks,
    Forall2 (image_block srv pt (h !!! bands) scale il) range blocks
    ∧ df' = {| columns := columns df; rows := rows df ++ concat blocks |}
    ∧ (concat blocks ≠ [] → NoDup (columns df)).
Proof.
  revert df. induction range as [|i range IH]; intros df; cbn [image_loop].
  - intros [= <-] _. exists []. split; [constructor|].
    simpl. rewrite app_nil_r. by destruct df.
  - rewrite run_bind. unfold then_run.
    destruct (returned (run srv h (image_body pt bands scale il i df)))
      as [df1|e] eqn:H1; cbn [returned]; [|done].
    rewrite readonly_frame by apply readonly_image_body.
    intros Hret Hcols.
    apply image_body_returned in H1 as (block & Hblock & -> & Hnodup1);
      [|done].
    apply IH in Hret as (blocks & Hblocks & -> & Hnodup); [|done]. simpl.
    exists (block :: blocks). split; [by constructor|].
    simpl. split; [by rewrite <- app_assoc|].
    simpl in Hnodup. destruct block; [done|]. intros _. by apply Hnodup1.
Qed.

(** What the function returns when the service reports no image. *)
Lemma returned_empty srv h lon lat sd ed addr bands mcc scale :
  getInfo_number srv
    (size (landsat_query (Point lon lat) sd ed addr (h !!! bands) mcc)) = Ok 0 →
  returned (run srv h
    (Landsat_Surface_Reflectance lon lat sd ed addr bands mcc scale))
  = Ok {| columns := table_columns (h !!! bands);
          rows := [replicate (length (table_columns (h !!! bands))) VNone] |}.
Proof.
  intros Hsize. unfold Landsat_Surface_Reflectance. cbn [bind run].
  rewrite Hsize. cbn [bind run logged returned]. rewrite decide_True by done.
  cbn [bind run]. rewrite run_lift. cbn [returned]. unfold DataFrame_new.
  change (["Date"; "Coordinate"] ++ h !!! bands ++ ["CloudCover"])
    with (table_columns (h !!! bands)).
  cbn [columns].
  by rewrite (empty_loop_rows _ (table_columns (h !!! bands)) []) by (by left).
Qed.

(** What the function returns when the service reports [n > 0] images and
    lists [m] of them. *)
Lemma returned_nonempty srv h lon lat sd ed addr bands mcc scale n m df :
  let landsat := landsat_query (Point lon lat) sd ed addr (h !!! bands) mcc in
  let image_list := toList landsat (size landsat) in
  getInfo_number srv (size landsat) = Ok n → n ≠ 0 →
  getInfo_number srv (list_size image_list) = Ok m →
  returned (run srv h
    (Landsat_Surface_Reflectance lon lat sd ed addr bands mcc scale)) = Ok df →
  ∃ blocks,
    Forall2 (image_block srv (Point lon lat) (h !!! bands) scale image_list)
      (seq 0 m) blocks
    ∧ df = {| columns := table_columns (h !!! bands); rows := concat blocks |}
    ∧ (concat blocks ≠ [] → NoDup (table_columns (h !!! bands))).
Proof.
  intros landsat image_list Hn Hn0 Hm.
  unfold Landsat_Surface_Reflectance. simpl.
  fold landsat. rewrite Hn. simpl. rewrite decide_False by done. simpl.
  fold image_list. rewrite Hm. simpl.
  intros Hret. apply image_loop_returned in Hret; [|done]. done.
Qed.

End Run.

(** ** The reference service *)

Section ReferenceFacts.
Context {num : Type} `{!Numeric num}.
Implicit Types (cat : Catalog num) (r im : raster num).

Lemma mapM_Forall2 {A B} (f : A → result B) l l' :
  mapM f l = Ok l' → Forall2 (λ a b, f a = Ok b) l l'.
Proof.
  revert l'. induction l as [|a l IH]; intros l'; simpl.
  - intros [= <-]. constructor.
  - destruct (f a) as [b|] eqn:Hb; simpl; [|done].
    destruct (mapM f l) as [bs|]; simpl; [|done].
    intros [= <-]. constructor; auto.
Qed.

Lemma filter_Forall {A} (f : A → bool) (l : list A) :
  Forall (λ x, f x = true) (List.filter f l).
Proof.
  induction l as [|x l IH]; simpl; [constructor|].
  destruct (f x) eqn:Hx; [by constructor|done].
Qed.

Lemma filter_keeps_Forall {A} (P : A → Prop) (f : A → bool) (l : list A) :
  Forall P l → Forall P (List.filter f l).
Proof.
  induction 1 as [|x l Hx _ IH]; simpl; [constructor|].
  destruct (f x); [by constructor|done].
Qed.

Lemma select_bands_names names im im' :
  select_bands names im = Ok im' →
  raster_properties im' = raster_properties im
  ∧ map fst (raster_bands im') = names.
Proof.
  unfold select_bands.
  destruct (mapM _ names) as [bs|] eqn:Hbs; simpl; [|done].
  intros [= <-]. simpl. split; [done|].
  apply mapM_Forall2 in Hbs. induction Hbs as [|name [n p] ? ? Hx _ IH]; [done|].
  simpl. rewrite IH. f_equal.
  destruct (find_band name (raster_bands im)); [|done]. by injection Hx as <- _.
Qed.

(** Every image that passes the query of the function carries exactly the
    requested bands and a numeric cloud cover below the threshold. *)
Lemma landsat_query_matching cat pt sd ed addr bs mcc matching :
  eval_collection cat (landsat_query pt sd ed addr bs mcc) = Ok matching →
  Forall (λ im,
      map fst (raster_bands im) = bs
      ∧ ∃ x, raster_properties im !! "CLOUD_COVER" = Some (VNum x)
             ∧ num_lt x mcc = true) matching.
Proof.
  unfold landsat_query. cbn [eval_collection].
  destruct (assets cat !! addr) as [ims|]; cbn [result_bind]; [|done].
  destruct (mapM (select_bands bs) ims) as [sel|] eqn:Hsel;
    cbn [result_bind]; [|done].
  destruct (parse_date cat sd); [|done]. destruct (parse_date cat ed); [|done].
  cbn [result_bind]. rewrite decide_True by done. intros [= <-].
  apply Forall_and. split.
  - do 3 apply filter_keeps_Forall.
    apply mapM_Forall2 in Hsel.
    induction Hsel as [|? ? ? ? Hx _ IH]; constructor; [|done].
    by apply select_bands_names in Hx as [_ ?].
  - eapply Forall_impl; [apply filter_Forall|]. intros im. simpl.
    unfold metadata_less_than.
    destruct (raster_properties im !! "CLOUD_COVER") as [[| |x| |]|]; try done.
    eauto.
Qed.

Section Queries.
Variables (cat : Catalog num) (landsat : ImageCollection num)
  (matching : list (raster num)).
Hypothesis Hmatching : eval_collection cat landsat = Ok matching.

Lemma eval_size : eval_number cat (size landsat) = Ok (length matching).
Proof. simpl. by rewrite Hmatching. Qed.

Lemma eval_image_list :
  eval_list cat (toList landsat (size landsat)) = Ok matching.
Proof. simpl. rewrite Hmatching. simpl. by rewrite take_ge. Qed.

Lemma eval_list_size :
  eval_number cat (list_size (toList landsat (size landsat)))
  = Ok (length matching).
Proof.
  simpl. rewrite Hmatching. simpl. by rewrite take_ge.
Qed.

Lemma getInfo_image_get i info :
  getInfo_image (ee_service cat) (get (toList landsat (size landsat)) i)
  = Ok info →
  ∃ im, matching !! i = Some im ∧ properties info = raster_properties im.
Proof.
  simpl. rewrite Hmatching. simpl. rewrite take_ge by done.
  destruct (matching !! i) as [im|]; simpl; [|done].
  intros [= <-]. eauto.
Qed.

End Queries.

Lemma find_band_map_bands (f : num → num) name r :
  find_band name (raster_bands (map_bands f r))
  = (λ (p : Geometry num → num → option num) g s, f <$> p g s)
    <$> find_band name (raster_bands r).
Proof.
  unfold map_bands. simpl. induction (raster_bands r) as [|[n p] bands IH];
    [done|].
  simpl. destruct (decide (n = name)); [done|apply IH].
Qed.

(** A sampled feature has, under every band name, the pixel of the first
    band of that name. *)
Lemma sample_bands_lookup
  (bands : list (string * (Geometry num → num → option num))) g s vs name :
  sample_bands bands g s = Some vs →
  (list_to_map vs : gmap string (value num)) !! name
  = p ← find_band name bands; VNum <$> p g s.
Proof.
  revert vs. induction bands as [|[n p] bands IH]; intros vs; simpl.
  - intros [= <-]. done.
  - destruct (p g s) as [x|] eqn:Hp; [|done].
    destruct (sample_bands bands g s) as [vs'|]; [|done].
    intros [= <-]. simpl.
    destruct (decide (n = name)) as [->|Hne].
    + rewrite lookup_insert_eq. simpl. by rewrite Hp.
    + rewrite lookup_insert_ne by done. by apply IH.
Qed.

End ReferenceFacts.

Section ReferenceRun.
Context {num : Type} `{!Numeric num}.
Implicit Types (cat : Catalog num) (r im : raster num).

Lemma sampled_feature_lookup r m a pt scale f name :
  sample_point
    (map_bands (λ x, num_add x a) (map_bands (λ x, num_mul x m) r)) scale pt
  = Some f →
  feature_properties f !! name
  = VNum <$> (corrected m a <$> raw_value r name pt scale).
Proof.
  unfold sample_point.
  destruct (sample_bands _ pt scale) as [vs|] eqn:Hvs; simpl; [|done].
  intros [= <-]. simpl. rewrite (sample_bands_lookup _ _ _ _ _ Hvs).
  rewrite !find_band_map_bands. unfold raw_value, corrected.
  destruct (find_band name (raster_bands r)) as [p|]; simpl; [|done].
  by destruct (p pt scale).
Qed.

(** What one image contributes when the service is the reference one: the
    image is the [i]-th that matches, its two coefficients are numbers, the
    point yields at most one feature, and the dict behind each row holds the
    corrected pixel under every requested band. *)
Lemma image_block_reference cat landsat matching pt bs scale i block :
  eval_collection cat landsat = Ok matching →
  image_block (ee_service cat) pt bs scale (toList landsat (size landsat)) i
    block →
  ∃ im date cc m a,
    matching !! i = Some im
    ∧ raster_properties im !! "DATE_ACQUIRED" = Some date
    ∧ raster_properties im !! "CLOUD_COVER" = Some cc
    ∧ raster_properties im !! "REFLECTANCE_MULT_BAND_2" = Some (VNum m)
    ∧ raster_properties im !! "REFLECTANCE_ADD_BAND_2" = Some (VNum a)
    ∧ length block ≤ 1
    ∧ Forall (λ row,
        ∃ d, row = row_of (table_columns bs) d
          ∧ (∀ k, d !! k =
               if decide (k ∈ bs)
               then VNum <$> (corrected m a <$> raw_value im k pt scale)
               else data_row_literal (coordinates pt) date cc !! k)
          ∧ (∀ band, band ∈ bs →
               ∃ raw, raw_value im band pt scale = Some raw)) block.
Proof.
  intros Hmatching (info & date & cc & M & A & fs & Hinfo & Hdate & Hcc & HM
                    & HA & Hfs & Hrows).
  destruct (getInfo_image_get _ _ _ Hmatching _ _ Hinfo) as (im & Him & Hprops).
  rewrite Hprops in Hdate, Hcc, HM, HA.
  unfold sample_request in Hfs. simpl in Hfs.
  rewrite Hmatching in Hfs. simpl in Hfs. rewrite take_ge, Him in Hfs by done.
  simpl in Hfs.
  destruct M as [| |m| |]; try done. simpl in Hfs.
  destruct A as [| |a| |]; try done. simpl in Hfs.
  injection Hfs as <-.
  exists im, date, cc, m, a. repeat (split; [done|]).
  destruct (sample_point _ scale pt) as [f|] eqn:Hf; simpl in Hrows.
  - apply Forall2_cons_inv_l in Hrows as (row & block' & Hrow & Hnil & ->).
    apply Forall2_nil_inv_l in Hnil as ->. split; [simpl; lia|].
    constructor; [|constructor].
    destruct Hrow as (d & Hd & ->). exists d. split; [done|].
    split.
    + intros k. rewrite (band_loop_lookup _ _ _ _ Hd k).
      by rewrite (sampled_feature_lookup _ _ _ _ _ _ k Hf).
    + intros band Hband.
      destruct (band_loop_present _ _ _ _ Hd band Hband) as (v & Hv & _).
      rewrite (sampled_feature_lookup _ _ _ _ _ _ band Hf) in Hv.
      destruct (raw_value im band pt scale) as [raw|]; [eauto|done].
  - apply Forall2_nil_inv_l in Hrows as ->. split; [simpl; lia|constructor].
Qed.

End ReferenceRun.

(** ** Cells of a row *)

Section Cells.
Context {num : Type}.
Implicit Types (d : gmap string (value num)) (bs : list string).

Lemma row_of_length bs d : length (row_of (table_columns bs) d) = length bs + 3.
Proof.
  unfold row_of, table_columns. rewrite length_map. simpl.
  rewrite length_app. simpl. lia.
Qed.

Lemma row_of_date bs d :
  row_of (table_columns bs) d !! 0 = Some (default VNaN (d !! "Date")).
Proof. done. Qed.

Lemma row_of_coordinate bs d :
  row_of (table_columns bs) d !! 1 = Some (default VNaN (d !! "Coordinate")).
Proof. done. Qed.

Lemma row_of_band bs d j band :
  bs !! j = Some band →
  row_of (table_columns bs) d !! (2 + j) = Some (default VNaN (d !! band)).
Proof.
  intros Hj. unfold row_of, table_columns. rewrite list_lookup_fmap. simpl.
  by rewrite lookup_app_l, Hj by (by eapply lookup_lt_Some).
Qed.

Lemma row_of_cloud_cover bs d :
  row_of (table_columns bs) d !! (2 + length bs)
  = Some (default VNaN (d !! "CloudCover")).
Proof.
  unfold row_of, table_columns. rewrite list_lookup_fmap. simpl.
  rewrite lookup_app_r by done. by rewrite Nat.sub_diag.
Qed.

Lemma concat_singletons {A} (blocks : list (list A)) :
  (∀ block, block ∈ blocks → length block = 1) →
  length (concat blocks) = length blocks.
Proof.
  induction blocks as [|b blocks IH]; intros Hb; [done|].
  simpl. rewrite length_app, IH, (Hb b) by (intros; try apply Hb; by constructor).
  done.
Qed.


Lemma concat_nil_lookup {A} (blocks : list (list A)) i block :
  concat blocks = [] → blocks !! i = Some block → block = [].
Proof.
  revert i. induction blocks as [|b blocks IH]; intros i; [done|].
  simpl. intros [-> Hrest]%app_eq_nil. destruct i as [|i]; simpl.
  - by intros [= <-].
  - by apply IH.
Qed.

End Cells.

(** ** The function against the reference service *)

Section ReferenceRows.
Context {num : Type} `{!Numeric num}.
Implicit Types (cat : Catalog num) (im : raster num).

Lemma reference_rows cat h lon lat sd ed addr bands mcc scale matching df :
  eval_collection cat
    (landsat_query (Point lon lat) sd ed addr (h !!! bands) mcc) = Ok matching →
  matching ≠ [] →
  returned (run (ee_service cat) h
    (Landsat_Surface_Reflectance lon lat sd ed addr bands mcc scale)) = Ok df →
  ∃ blocks,
    rows df = concat blocks
    ∧ Forall2 (reference_block (Point lon lat) (h !!! bands) mcc scale)
        matching blocks
    ∧ (rows df ≠ [] → NoDup (table_columns (h !!! bands))).
Proof.
  intros Hmatching Hne Hret.
  pose proof (landsat_query_matching _ _ _ _ _ _ _ _ Hmatching) as Hcloud.
  destruct (returned_nonempty (ee_service cat) _ _ _ _ _ _ _ _ _
    (length matching) (length matching) _
    (eval_size _ _ _ Hmatching)
    ltac:(by destruct matching)
    (eval_list_size _ _ _ Hmatching) Hret) as (blocks & Hblocks & -> & Hnodup).
  exists blocks. split; [done|]. split; [|done].
  apply Forall2_same_length_lookup in Hblocks as [Hlen Hblocks].
  rewrite length_seq in Hlen.
  apply Forall2_same_length_lookup. split; [done|].
  intros i im block Him Hblock.
  assert (seq 0 (length matching) !! i = Some i) as Hi.
  { apply lookup_seq. split; [done|]. by eapply lookup_lt_Some. }
  specialize (Hblocks i i block Hi Hblock).
  destruct (image_block_reference _ _ _ _ _ _ _ _ Hmatching Hblocks)
    as (im' & date & cc & m & a & Him' & Hdate & Hcc & Hm & Ha & Hone & Hrows).
  rewrite Him in Him'. injection Him' as <-.
  rewrite Forall_lookup in Hcloud.
  destruct (Hcloud i im Him) as (_ & x & Hx & Hlt).
  rewrite Hx in Hcc. injection Hcc as <-.
  exists date, x, m, a. repeat (split; [done|]).
  intros row Hrow. rewrite Forall_forall in Hrows. by apply Hrows.
Qed.

End ReferenceRows.

(** ** Missing metadata *)

Section MissingMetadata.
Context {num : Type}.
Implicit Types (srv : Service num) (h : gmap loc (list string))
  (df : DataFrame num).

Lemma image_body_missing_field srv h pt bands scale il i df :
  stops_at_missing_field (run srv h (image_body pt bands scale il i df)).
Proof.
  intros q info key. unfold image_body. simpl.
  destruct (getInfo_image srv (get il i)) as [info0|e] eqn:Hinfo; simpl.
  2:{ by intros [=]%list_elem_of_singleton. }
  unfold getitem, metadata_fields.
  destruct (properties info0 !! "DATE_ACQUIRED") as [date|] eqn:Hdate; simpl.
  2:{ intros [= -> ->]%list_elem_of_singleton _ _.
      exists "DATE_ACQUIRED". split; [set_solver|done]. }
  destruct (properties info0 !! "CLOUD_COVER") as [cc|] eqn:Hcc; simpl.
  2:{ intros [= -> ->]%list_elem_of_singleton _ _.
      exists "CLOUD_COVER". split; [set_solver|done]. }
  destruct (properties info0 !! "REFLECTANCE_MULT_BAND_2") as [M|] eqn:HM; simpl.
  2:{ intros [= -> ->]%list_elem_of_singleton _ _.
      exists "REFLECTANCE_MULT_BAND_2". split; [set_solver|done]. }
  destruct (properties info0 !! "REFLECTANCE_ADD_BAND_2") as [A|] eqn:HA; simpl.
  2:{ intros [= -> ->]%list_elem_of_singleton _ _.
      exists "REFLECTANCE_ADD_BAND_2". split; [set_solver|done]. }
  assert (∀ rest : list (event num),
    (∀ ev, ev ∈ rest → ∃ q' r, ev = EvFeatures q' r) →
    EvImage q (Ok info) ∈ EvImage (get il i) (Ok info0) :: rest →
    info = info0) as Hhead.
  { intros rest Hrest [[= _ ->]|Hin]%elem_of_cons; [done|].
    by destruct (Hrest _ Hin) as (? & ? & ?). }
  intros Hin Hkey Hnone.
  assert (info = info0) as ->.
  { destruct (getInfo_features srv _) as [fs|e]; simpl in Hin.
    - rewrite (proj1 (feature_loop_run _ _ _ _ _ _ _ _)) in Hin.
      eapply Hhead; [|done]. intros ev ->%list_elem_of_singleton. eauto.
    - eapply Hhead; [|done]. intros ev ->%list_elem_of_singleton. eauto. }
  repeat (apply elem_of_cons in Hkey as [->|Hkey]; [congruence|]).
  by apply elem_of_nil in Hkey.
Qed.

Lemma image_loop_missing_field srv h pt bands scale il range df :
  stops_at_missing_field (run srv h (image_loop pt bands scale il range df)).
Proof.
  revert df. induction range as [|i range IH]; intros df; cbn [image_loop].
  - by intros q info key ?%elem_of_nil.
  - rewrite run_bind. unfold then_run.
    pose proof (image_body_missing_field srv h pt bands scale il i df) as Hbody.
    destruct (returned (run srv h (image_body pt bands scale il i df)))
      as [df1|e] eqn:H1; cbn [returned trace].
    + rewrite readonly_frame by apply readonly_image_body.
      intros q info key [Hin|Hin]%elem_of_app Hkey Hnone.
      * destruct (Hbody q info key Hin Hkey Hnone) as (? & _ & _ & ?).
        congruence.
      * apply (IH df1 q info key Hin Hkey Hnone).
    + intros q info key Hin Hkey Hnone. cbn [trace] in Hin.
      destruct (Hbody q info key Hin Hkey Hnone) as (key' & ? & ? & Hret).
      exists key'. by rewrite <- Hret.
Qed.

Lemma Landsat_Surface_Reflectance_missing_field srv h lon lat sd ed addr bands
  mcc scale :
  stops_at_missing_field (run srv h
    (Landsat_Surface_Reflectance lon lat sd ed addr bands mcc scale)).
Proof.
  unfold Landsat_Surface_Reflectance. cbn [bind run].
  destruct (getInfo_number srv _) as [n|e]; cbn [bind run logged].
  2:{ by intros q info key [=]%list_elem_of_singleton. }
  destruct (decide (n = 0)); cbn [bind run].
  - rewrite run_lift. intros q info key. cbn [trace logged].
    by intros [[=]|?%elem_of_nil]%elem_of_cons.
  - destruct (getInfo_number srv _) as [m|e]; cbn [bind run logged].
    2:{ intros q info key. cbn [trace].
        by intros [[=]|[=]%list_elem_of_singleton]%elem_of_cons. }
    intros q info key. cbn [trace returned].
    intros [[=]|[[=]|Hin]%elem_of_cons]%elem_of_cons.
    by apply (image_loop_missing_field _ _ _ _ _ _ _ _ q info key).
Qed.

End MissingMetadata.

(** * The claims *)

Section ClientClaims.
Context {num : Type}.
Implicit Types (srv : Service num) (h : gmap loc (list string))
  (df : DataFrame num).

(** In the non-empty case a returned table is the concatenation of one block
    of rows per listed image. *)
Lemma returned_blocks srv h lon lat sd ed addr bands mcc scale n df :
  let landsat := landsat_query (Point lon lat) sd ed addr (h !!! bands) mcc in
  let image_list := toList landsat (size landsat) in
  getInfo_number srv (size landsat) = Ok n → 1 ≤ n →
  returned (run srv h
    (Landsat_Surface_Reflectance lon lat sd ed addr bands mcc scale)) = Ok df →
  ∃ m blocks,
    getInfo_number srv (list_size image_list) = Ok m
    ∧ length blocks = m
    ∧ rows df = concat blocks
    ∧ (∀ i block, blocks !! i = Some block →
        image_block srv (Point lon lat) (h !!! bands) scale image_list i block)
    ∧ (rows df ≠ [] → NoDup (table_columns (h !!! bands))).
Proof.
  intros landsat image_list Hn Hn1 Hret.
  destruct (getInfo_number srv (list_size image_list)) as [m|e] eqn:Hm.
  - destruct (returned_nonempty _ _ _ _ _ _ _ _ _ _ _ _ _ Hn
      ltac:(lia) Hm Hret) as (blocks & Hblocks & -> & Hnodup).
    exists m, blocks. split; [done|].
    apply Forall2_same_length_lookup in Hblocks as [Hlen Hblocks].
    rewrite length_seq in Hlen. repeat (split; [done|]). split; [|done].
    intros i block Hi. apply (Hblocks i i block); [|done].
    apply lookup_seq. split; [done|]. apply lookup_lt_Some in Hi. lia.
  - unfold Landsat_Surface_Reflectance in Hret. cbn [bind run] in Hret.
    fold landsat in Hret. rewrite Hn in Hret.
    cbn [bind run logged returned] in Hret.
    rewrite decide_False in Hret by lia. cbn [bind run] in Hret.
    fold image_list in Hret. by rewrite Hm in Hret.
Qed.

(** C1. When the service reports that no image matches, the call returns a
    table with exactly one row, and every cell of that row (Date,
    Coordinate, each requested band, CloudCover) is [None]. *)
Theorem empty_result_is_one_null_row srv h lon lat sd ed addr bands mcc scale :
  getInfo_number srv
    (size (landsat_query (Point lon lat) sd ed addr (h !!! bands) mcc)) = Ok 0 →
  ∃ df row,
    returned (run srv h
      (Landsat_Surface_Reflectance lon lat sd ed addr bands mcc scale)) = Ok df
    ∧ columns df = ["Date"; "Coordinate"] ++ h !!! bands ++ ["CloudCover"]
    ∧ rows df = [row]
    ∧ length row = length (columns df)
    ∧ ∀ cell, cell ∈ row → cell = VNone.
Proof.
  intros Hsize. eexists _, _. split; [by apply returned_empty|].
  cbn [columns rows]. repeat split.
  - by rewrite length_replicate.
  - by intros cell [-> _]%elem_of_replicate.
Qed.

(** C3, as amended. With N >= 1 matching images the table holds one row per
    feature that sampling returned, image by image: block [i] of the rows
    has one row for each feature of the sample of image [i], so the table
    has exactly N rows when every sample has one feature. Every row has one
    cell per column: its Date cell is the DATE_ACQUIRED value of its image,
    its Coordinate cell is the queried point, a list and so not null, and
    under each requested band it holds the feature's value for that band. *)
Theorem one_row_per_sampled_feature srv h lon lat sd ed addr bands mcc scale
  n df :
  let landsat := landsat_query (Point lon lat) sd ed addr (h !!! bands) mcc in
  let image_list := toList landsat (size landsat) in
  getInfo_number srv (size landsat) = Ok n → 1 ≤ n →
  getInfo_number srv (list_size image_list) = Ok n →
  returned (run srv h
    (Landsat_Surface_Reflectance lon lat sd ed addr bands mcc scale)) = Ok df →
  ∃ blocks,
    rows df = concat blocks
    ∧ length blocks = n
    ∧ (∀ i block, blocks !! i = Some block →
        ∃ info date M A features,
          getInfo_image srv (get image_list i) = Ok info
          ∧ properties info !! "DATE_ACQUIRED" = Some date
          ∧ properties info !! "REFLECTANCE_MULT_BAND_2" = Some M
          ∧ properties info !! "REFLECTANCE_ADD_BAND_2" = Some A
          ∧ getInfo_features srv
              (sample_request (Point lon lat) scale image_list i M A)
            = Ok features
          ∧ length block = length features
          ∧ Forall2 (λ feature row,
              length row = length (h !!! bands) + 3
              ∧ row !! 0 = Some date
              ∧ row !! 1 = Some (VList [VNum lon; VNum lat])
              ∧ (∀ j band, (h !!! bands) !! j = Some band →
                   ∃ v, feature_properties feature !! band = Some v
                        ∧ row !! (2 + j) = Some v))
              features block)
    ∧ ((∀ block, block ∈ blocks → length block = 1) → length (rows df) = n).
Proof.
  intros landsat image_list Hn Hn1 Hm Hret.
  destruct (returned_blocks _ _ _ _ _ _ _ _ _ _ _ _ Hn Hn1 Hret)
    as (m & blocks & Hm' & Hlen & Hrows & Hblocks & Hnodup).
  fold landsat image_list in Hm'. rewrite Hm in Hm'. injection Hm' as <-.
  exists blocks. repeat (split; [done|]). split.
  - intros i block Hi.
    destruct (Hblocks i block Hi)
      as (info & date & cc & M & A & fs & ? & ? & ? & ? & ? & ? & Hfs).
    exists info, date, M, A, fs. repeat (split; [done|]).
    split; [symmetry; by eapply Forall2_length|].
    assert (block ≠ [] → ("Date" ∉ h !!! bands) ∧ ("Coordinate" ∉ h !!! bands))
      as Hfree.
    { intros Hblock.
      destruct (table_columns_NoDup (h !!! bands)) as (_ & ? & ? & _); [|done].
      apply Hnodup. rewrite Hrows. intros Hnil.
      by apply Hblock, (concat_nil_lookup _ _ _ Hnil Hi). }
    apply Forall2_same_length_lookup. split; [by eapply Forall2_length|].
    intros k f row Hf Hrow.
    destruct (Forall2_lookup_lr _ _ _ _ _ _ Hfs Hf Hrow) as (d & Hd & ->).
    destruct Hfree as [Hdate Hcoord].
    { intros ->. by rewrite lookup_nil in Hrow. }
    split; [apply row_of_length|].
    pose proof (band_loop_lookup _ _ _ _ Hd) as Hlook.
    split; [|split].
    + rewrite row_of_date, Hlook, decide_False by done. done.
    + rewrite row_of_coordinate, Hlook, decide_False by done. done.
    + intros j band Hj.
      destruct (band_loop_present _ _ _ _ Hd band) as (v & Hv & Hdv).
      { by eapply list_elem_of_lookup_2. }
      exists v. split; [done|]. by rewrite (row_of_band _ _ _ _ Hj), Hdv.
  - intros Hone. rewrite Hrows, concat_singletons by done. done.
Qed.


(** C6. Whenever the call returns a table, in the empty and in the non-empty
    case alike, its columns are Date, Coordinate, the requested bands in the
    order given, and CloudCover. *)
Theorem columns_are_fixed srv h lon lat sd ed addr bands mcc scale df :
  returned (run srv h
    (Landsat_Surface_Reflectance lon lat sd ed addr bands mcc scale)) = Ok df →
  columns df = ["Date"; "Coordinate"] ++ h !!! bands ++ ["CloudCover"].
Proof.
  intros Hret.
  destruct (getInfo_number srv
    (size (landsat_query (Point lon lat) sd ed addr (h !!! bands) mcc)))
    as [[|n]|e] eqn:Hn.
  - rewrite returned_empty in Hret by done. by injection Hret as <-.
  - destruct (getInfo_number srv
      (list_size (toList
         (landsat_query (Point lon lat) sd ed addr (h !!! bands) mcc)
         (size (landsat_query (Point lon lat) sd ed addr (h !!! bands) mcc)))))
      as [m|e] eqn:Hm.
    + by destruct (returned_nonempty _ _ _ _ _ _ _ _ _ _ _ _ _ Hn
        ltac:(done) Hm Hret) as (blocks & _ & -> & _).
    + unfold Landsat_Surface_Reflectance in Hret. cbn [bind run] in Hret.
      rewrite Hn in Hret. cbn [bind run logged returned] in Hret.
      rewrite decide_False in Hret by done. cbn [bind run] in Hret.
      by rewrite Hm in Hret.
  - unfold Landsat_Surface_Reflectance in Hret. cbn [bind run] in Hret.
    by rewrite Hn in Hret.
Qed.

(** C7. With at least one matching image, the rows of the returned table are
    the rows made for the first listed image, then those for the second, and
    so on through the list as the service enumerates it: the function never
    reorders them. *)
Theorem rows_follow_enumeration srv h lon lat sd ed addr bands mcc scale n df :
  let landsat := landsat_query (Point lon lat) sd ed addr (h !!! bands) mcc in
  let image_list := toList landsat (size landsat) in
  getInfo_number srv (size landsat) = Ok n → 1 ≤ n →
  returned (run srv h
    (Landsat_Surface_Reflectance lon lat sd ed addr bands mcc scale)) = Ok df →
  ∃ m blocks,
    getInfo_number srv (list_size image_list) = Ok m
    ∧ length blocks = m
    ∧ rows df = concat blocks
    ∧ ∀ i block, blocks !! i = Some block →
        image_block srv (Point lon lat) (h !!! bands) scale image_list i block.
Proof.
  intros landsat image_list Hn Hn1 Hret.
  destruct (returned_blocks _ _ _ _ _ _ _ _ _ _ _ _ Hn Hn1 Hret)
    as (m & blocks & ? & ? & ? & ? & _).
  by exists m, blocks.
Qed.

(** C8. Nothing is caught: if any round trip of the call fails, that round
    trip is the last one and its exception, unchanged, is the outcome of the
    call; and if the metadata answered for an image lacks one of the four
    fields the function reads, the outcome is the [KeyError] of a field that
    is missing. *)
Theorem upstream_errors_propagate srv h lon lat sd ed addr bands mcc scale :
  let o := run srv h
    (Landsat_Surface_Reflectance lon lat sd ed addr bands mcc scale) in
  (∀ ev e, ev ∈ trace o → event_error ev = Some e →
     returned o = Err e ∧ last (trace o) = Some ev)
  ∧ (∀ q info key,
       EvImage q (Ok info) ∈ trace o → key ∈ metadata_fields →
       properties info !! key = None →
       ∃ key', key' ∈ metadata_fields ∧ properties info !! key' = None
               ∧ returned o = Err (KeyError key')).
Proof.
  split.
  - intros ev e. apply run_error_last.
  - apply Landsat_Surface_Reflectance_missing_field.
Qed.

(** C9. The call leaves the heap as it found it: the list passed as [bands],
    the shared default list included, is only ever read. *)
Theorem arguments_are_not_mutated srv h lon lat sd ed addr bands mcc scale :
  final_heap (run srv h
    (Landsat_Surface_Reflectance lon lat sd ed addr bands mcc scale)) = h.
Proof. apply readonly_frame, readonly_Landsat_Surface_Reflectance. Qed.

(** C10. Two runs on equal arguments against services that answer every
    request alike make the same round trips and return the same table. *)
Theorem deterministic_in_the_service (s1 s2 : Service num) h lon lat sd ed addr
  bands mcc scale :
  same_answers s1 s2 →
  run s1 h (Landsat_Surface_Reflectance lon lat sd ed addr bands mcc scale)
  = run s2 h (Landsat_Surface_Reflectance lon lat sd ed addr bands mcc scale).
Proof. apply run_same_answers. Qed.

End ClientClaims.

Section ReferenceClaims.
Context {num : Type} `{!Numeric num}.
Implicit Types (cat : Catalog num) (h : gmap loc (list string))
  (df : DataFrame num).

(** C2. Against the reference service, the rows of a returned table split
    into one block per matching image, and in every row of an image's block
    the cell of each requested band is [raw * M + A]: [raw] is that band's
    pixel of that image under the point, and [M], [A] are the numbers under
    REFLECTANCE_MULT_BAND_2 and REFLECTANCE_ADD_BAND_2 in that same image's
    metadata, the same pair for all of its bands. *)
Theorem band_values_are_corrected cat h lon lat sd ed addr bands mcc scale
  matching df :
  eval_collection cat
    (landsat_query (Point lon lat) sd ed addr (h !!! bands) mcc) = Ok matching →
  matching ≠ [] →
  returned (run (ee_service cat) h
    (Landsat_Surface_Reflectance lon lat sd ed addr bands mcc scale)) = Ok df →
  ∃ blocks,
    rows df = concat blocks
    ∧ Forall2 (λ im block,
        ∃ M A,
          raster_properties im !! "REFLECTANCE_MULT_BAND_2" = Some (VNum M)
          ∧ raster_properties im !! "REFLECTANCE_ADD_BAND_2" = Some (VNum A)
          ∧ ∀ row, row ∈ block →
              ∀ j band, (h !!! bands) !! j = Some band →
                ∃ raw, raw_value im band (Point lon lat) scale = Some raw
                       ∧ row !! (2 + j)
                         = Some (VNum (num_add (num_mul raw M) A)))
        matching blocks.
Proof.
  intros Hmatching Hne Hret.
  destruct (reference_rows _ _ _ _ _ _ _ _ _ _ _ _ Hmatching Hne Hret)
    as (blocks & Hrows & Hblocks & _).
  exists blocks. split; [done|].
  eapply Forall2_impl; [exact Hblocks|]. cbn beta.
  intros im block (date & cc & m & a & _ & _ & _ & Hm & Ha & _ & Hblock).
  exists m, a. repeat (split; [done|]).
  intros row Hrow j band Hj.
  destruct (Hblock row Hrow) as (d & -> & Hd & Hraw).
  assert (band ∈ h !!! bands) as Hband by (by eapply list_elem_of_lookup_2).
  destruct (Hraw band Hband) as (raw & Hr). exists raw. split; [done|].
  rewrite (row_of_band _ _ _ _ Hj), Hd, decide_True, Hr by done. done.
Qed.

(** C4. Against the reference service, every matching image has a cloud
    cover below the threshold of the call, so not above it, and every row
    of the returned table made for that image shows that cloud cover in its
    CloudCover cell. *)
Theorem cloud_cover_below_threshold cat h lon lat sd ed addr bands mcc scale
  matching df :
  eval_collection cat
    (landsat_query (Point lon lat) sd ed addr (h !!! bands) mcc) = Ok matching →
  matching ≠ [] →
  returned (run (ee_service cat) h
    (Landsat_Surface_Reflectance lon lat sd ed addr bands mcc scale)) = Ok df →
  ∃ blocks,
    rows df = concat blocks
    ∧ Forall2 (λ im block,
        ∃ cc,
          raster_properties im !! "CLOUD_COVER" = Some (VNum cc)
          ∧ num_lt cc mcc = true
          ∧ num_lt mcc cc = false
          ∧ ∀ row, row ∈ block →
              row !! (2 + length (h !!! bands)) = Some (VNum cc))
        matching blocks.
Proof.
  intros Hmatching Hne Hret.
  destruct (reference_rows _ _ _ _ _ _ _ _ _ _ _ _ Hmatching Hne Hret)
    as (blocks & Hrows & Hblocks & Hnodup).
  exists blocks. split; [done|].
  apply Forall2_same_length_lookup in Hblocks as [Hlen Hblocks].
  apply Forall2_same_length_lookup. split; [done|].
  intros i im block Him Hi.
  destruct (Hblocks i im block Him Hi)
    as (date & cc & m & a & _ & Hcc & Hlt & _ & _ & _ & Hblock).
  exists cc. repeat (split; [done|]).
  split; [by apply num_lt_asym|].
  intros row Hrow. destruct (Hblock row Hrow) as (d & -> & Hd & _).
  destruct (table_columns_NoDup (h !!! bands)) as (_ & _ & _ & Hcloud).
  { apply Hnodup. rewrite Hrows. intros Hnil.
    rewrite (concat_nil_lookup _ _ _ Hnil Hi) in Hrow.
    by apply elem_of_nil in Hrow. }
  by rewrite row_of_cloud_cover, Hd, decide_False by done.
Qed.

End ReferenceClaims.

(** * The claims on the concrete catalogues *)

Lemma empty_result_is_one_null_row_witness :
  ∃ df row,
    returned (run (ee_service catalogue) example_heap
      (example_call default_collection_address default_bands 1)) = Ok df
    ∧ columns df
      = ["Date"; "Coordinate"] ++ example_heap !!! default_bands
        ++ ["CloudCover"]
    ∧ rows df = [row]
    ∧ length row = length (columns df)
    ∧ ∀ cell, cell ∈ row → cell = VNone.
Proof.
  apply (empty_result_is_one_null_row (ee_service catalogue) example_heap).
  vm_compute. reflexivity.
Defined.

Lemma band_values_are_corrected_witness :
  ∃ blocks,
    rows example_table = concat blocks
    ∧ Forall2 (λ im block,
        ∃ M A,
          raster_properties im !! "REFLECTANCE_MULT_BAND_2" = Some (VNum M)
          ∧ raster_properties im !! "REFLECTANCE_ADD_BAND_2" = Some (VNum A)
          ∧ ∀ row, row ∈ block →
              ∀ j band, (example_heap !!! default_bands) !! j = Some band →
                ∃ raw,
                  raw_value im band (Point (-122)%Z 37%Z) 30%Z = Some raw
                  ∧ row !! (2 + j) = Some (VNum (raw * M + A)%Z))
        example_matching blocks.
Proof.
  refine (band_values_are_corrected catalogue example_heap (-122)%Z 37%Z
            "2022-01-01" "2022-12-31" default_collection_address default_bands
            10%Z 30%Z example_matching example_table _ _ _).
  - vm_compute. reflexivity.
  - discriminate.
  - vm_compute. reflexivity.
Defined.

Lemma one_row_per_sampled_feature_witness :
  ∃ blocks : list (list (list (value Z))),
    rows example_table = concat blocks ∧ length blocks = 2
    ∧ length (rows example_table) = 2.
Proof.
  destruct (one_row_per_sampled_feature (ee_service catalogue) example_heap
              (-122)%Z 37%Z "2022-01-01" "2022-12-31"
              default_collection_address default_bands 10%Z 30%Z 2
              example_table) as (blocks & Hrows & Hlen & _ & _).
  - vm_compute. reflexivity.
  - lia.
  - vm_compute. reflexivity.
  - vm_compute. reflexivity.
  - exists blocks. repeat split; [exact Hrows|exact Hlen].
Defined.

(** C3 as stated fails on both counts. With one matching image whose pixel
    under the point is masked, the returned table has no row; and with one
    matching image whose DATE_ACQUIRED is null, the one row of the returned
    table has a null date. *)
Lemma no_row_and_null_date :
  (getInfo_number (ee_service catalogue)
     (size (example_query "masked" default_bands 10)) = Ok 1
   ∧ returned (run (ee_service catalogue) example_heap
       (example_call "masked" default_bands 10))
     = Ok {| columns :=
               ["Date"; "Coordinate"; "SR_B4"; "SR_B3"; "SR_B2"; "CloudCover"];
             rows := [] |})
  ∧ (getInfo_number (ee_service undated_catalogue)
       (size (example_query "undated" default_bands 10)) = Ok 1
     ∧ returned (run (ee_service undated_catalogue) example_heap
         (example_call "undated" default_bands 10))
       = Ok {| columns :=
                 ["Date"; "Coordinate"; "SR_B4"; "SR_B3"; "SR_B2"; "CloudCover"];
               rows := [[VNone; VList [VNum (-122)%Z; VNum 37%Z];
                         VNum 3%Z; VNum 5%Z; VNum 7%Z; VNum 4%Z]] |}).
Proof. repeat split; vm_compute; reflexivity. Qed.

Lemma cloud_cover_below_threshold_witness :
  ∃ blocks,
    rows example_table = concat blocks
    ∧ Forall2 (λ im block,
        ∃ cc,
          raster_properties im !! "CLOUD_COVER" = Some (VNum cc)
          ∧ (cc <? 10)%Z = true
          ∧ (10 <? cc)%Z = false
          ∧ ∀ row, row ∈ block →
              row !! (2 + length (example_heap !!! default_bands))
              = Some (VNum cc))
        example_matching blocks.
Proof.
  refine (cloud_cover_below_threshold catalogue example_heap (-122)%Z 37%Z
            "2022-01-01" "2022-12-31" default_collection_address default_bands
            10%Z 30%Z example_matching example_table _ _ _).
  - vm_compute. reflexivity.
  - discriminate.
  - vm_compute. reflexivity.
Defined.


Lemma columns_are_fixed_witness :
  columns example_table
  = ["Date"; "Coordinate"] ++ example_heap !!! default_bands ++ ["CloudCover"].
Proof.
  apply (columns_are_fixed (ee_service catalogue) example_heap (-122)%Z 37%Z
           "2022-01-01" "2022-12-31" default_collection_address default_bands
           10%Z 30%Z example_table).
  vm_compute. reflexivity.
Defined.

Lemma rows_follow_enumeration_witness :
  ∃ blocks : list (list (list (value Z))),
    length blocks = 2 ∧ rows example_table = concat blocks.
Proof.
  destruct (rows_follow_enumeration (ee_service catalogue) example_heap
              (-122)%Z 37%Z "2022-01-01" "2022-12-31"
              default_collection_address default_bands 10%Z 30%Z 2
              example_table) as (m & blocks & Hm & Hlen & Hrows & _).
  - vm_compute. reflexivity.
  - lia.
  - vm_compute. reflexivity.
  - exists blocks. split; [|exact Hrows].
    rewrite Hlen. vm_compute in Hm. by injection Hm as <-.
Defined.

Lemma upstream_errors_propagate_witness :
  returned (run unreachable example_heap
    (example_call default_collection_address default_bands 10))
  = Err (OtherException "ConnectionError" "unreachable").
Proof.
  eapply (proj1 (upstream_errors_propagate unreachable example_heap (-122)%Z
                   37%Z "2022-01-01" "2022-12-31" default_collection_address
                   default_bands 10%Z 30%Z)).
  - left.
  - reflexivity.
Defined.

Lemma deterministic_in_the_service_witness :
  run (ee_service catalogue) example_heap
    (example_call default_collection_address default_bands 10)
  = run {| getInfo_number := eval_number catalogue;
           getInfo_image := getInfo_image (ee_service catalogue);
           getInfo_features := eval_features catalogue |} example_heap
      (example_call default_collection_address default_bands 10).
Proof.
  apply (deterministic_in_the_service (ee_service catalogue)).
  repeat split; intros q; reflexivity.
Defined.

(** A catalog address the service does not know: the first round trip fails
    and the call ends with that exception. *)
Example unknown_address_propagates :
  returned (run (ee_service catalogue) example_heap
    (example_call "nowhere" default_bands 10))
  = Err (EEException "ImageCollection.load: asset not found").
Proof. vm_compute. reflexivity. Qed.

(** The scenes come back in the order of the collection, March before
    February, and the cloudy scene is filtered out. *)
Example default_call_returns_example_table :
  returned (run (ee_service catalogue) example_heap
    (example_call default_collection_address default_bands 10))
  = Ok example_table.
Proof. vm_compute. reflexivity. Qed.

(** Six round trips for two images: two sizes, then metadata and sample for
    each image. *)
Example default_call_round_trips :
  length (trace (run (ee_service catalogue) example_heap
    (example_call default_collection_address default_bands 10))) = 6.
Proof. vm_compute. reflexivity. Qed.

(** * Further properties of the function *)

Section BandLoop.
Context {num : Type}.
Implicit Types (d props : gmap string (value num)) (bs : list string).

(** X7. The band loop of lines 112-113 fails exactly when some requested
    band is absent from the feature, and then with the [KeyError] of the
    first such band, whatever the row held so far. *)
Theorem band_loop_first_missing bs props d e :
  band_loop bs props d = Err e ↔
  ∃ before band after,
    bs = before ++ band :: after
    ∧ (∀ b, b ∈ before → is_Some (props !! b))
    ∧ props !! band = None
    ∧ e = KeyError band.
Proof.
  split.
  - revert d. induction bs as [|b bs IH]; intros d; simpl; [done|].
    unfold getitem. destruct (props !! b) as [v|] eqn:Hb; simpl.
    + intros (before & band & after & -> & Hbefore & Hnone & ->)%IH.
      exists (b :: before), band, after. repeat split; [|done].
      intros x [->|Hx]%elem_of_cons; [by eexists|by apply Hbefore].
    + intros [= <-]. exists [], b, bs. repeat split; [|done].
      by intros x ?%elem_of_nil.
  - intros (before & band & after & -> & Hbefore & Hnone & ->).
    revert d. induction before as [|b before IH]; intros d; simpl.
    + unfold getitem. by rewrite Hnone.
    + destruct (Hbefore b) as [v Hv]; [by left|].
      unfold getitem. rewrite Hv. simpl. apply IH.
      intros x Hx. apply Hbefore. by right.
Qed.

End BandLoop.

Section Traces.
Context {num : Type}.
Implicit Types (srv : Service num) (h : gmap loc (list string))
  (df : DataFrame num).

Lemma length_concat_const {A} k (ls : list (list A)) :
  Forall (λ l, length l = k) ls → length (concat ls) = k * length ls.
Proof.
  induction 1 as [|l ls Hl _ IH]; simpl; [lia|].
  rewrite length_app, IH, Hl. lia.
Qed.

Lemma image_body_trace srv h pt bands scale il i df df' :
  returned (run srv h (image_body pt bands scale il i df)) = Ok df' →
  image_round_trips srv pt scale il i
    (trace (run srv h (image_body pt bands scale il i df))).
Proof.
  unfold image_body. simpl.
  destruct (getInfo_image srv (get il i)) as [info|e] eqn:Hinfo; simpl; [|done].
  unfold getitem.
  destruct (properties info !! "DATE_ACQUIRED") as [date|]; simpl; [|done].
  destruct (properties info !! "CLOUD_COVER") as [cc|]; simpl; [|done].
  destruct (properties info !! "REFLECTANCE_MULT_BAND_2") as [M|] eqn:HM;
    simpl; [|done].
  destruct (properties info !! "REFLECTANCE_ADD_BAND_2") as [A|] eqn:HA;
    simpl; [|done].
  destruct (getInfo_features srv _) as [fs|e] eqn:Hfs; simpl; [|done].
  intros _. rewrite (proj1 (feature_loop_run _ _ _ _ _ _ _ _)).
  by exists info, M, A, fs.
Qed.

Lemma image_loop_trace srv h pt bands scale il range df df' :
  returned (run srv h (image_loop pt bands scale il range df)) = Ok df' →
  ∃ segs,
    Forall2 (image_round_trips srv pt scale il) range segs
    ∧ trace (run srv h (image_loop pt bands scale il range df)) = concat segs.
Proof.
  revert df. induction range as [|i range IH]; intros df; cbn [image_loop].
  - intros _. exists []. by split; [constructor|].
  - rewrite run_bind. unfold then_run.
    destruct (returned (run srv h (image_body pt bands scale il i df)))
      as [df1|e] eqn:H1; cbn [returned trace]; [|done].
    rewrite readonly_frame by apply readonly_image_body.
    intros Hret. apply image_body_trace in H1.
    destruct (IH _ Hret) as (segs & Hsegs & ->).
    eexists (_ :: segs). split; [by constructor|done].
Qed.

(** X1. A call that finds images and returns makes its round trips in a
    fixed order: the size of the collection, the size of the list, and then
    for each listed image, in ascending index, its metadata followed by its
    sample, the sample being requested with the two coefficients of that
    same metadata; [2 + 2 m] round trips for [m] listed images. *)
Theorem round_trips_of_a_successful_call srv h lon lat sd ed addr bands mcc
  scale n df :
  let landsat := landsat_query (Point lon lat) sd ed addr (h !!! bands) mcc in
  let image_list := toList landsat (size landsat) in
  let o := run srv h
    (Landsat_Surface_Reflectance lon lat sd ed addr bands mcc scale) in
  getInfo_number srv (size landsat) = Ok n → 1 ≤ n →
  returned o = Ok df →
  ∃ m segs,
    trace o = EvNumber (size landsat) (Ok n)
              :: EvNumber (list_size image_list) (Ok m) :: concat segs
    ∧ length segs = m
    ∧ (∀ i seg, segs !! i = Some seg →
         image_round_trips srv (Point lon lat) scale image_list i seg)
    ∧ length (trace o) = 2 + 2 * m.
Proof.
  intros landsat image_list o Hn Hn1. subst o.
  unfold Landsat_Surface_Reflectance. cbn [bind run].
  fold landsat. rewrite Hn. cbn [bind run logged returned trace].
  rewrite decide_False by lia. cbn [bind run].
  fold image_list.
  destruct (getInfo_number srv (list_size image_list)) as [m|e];
    cbn [bind run logged returned trace]; [|done].
  intros (segs & Hsegs & ->)%image_loop_trace.
  apply Forall2_same_length_lookup in Hsegs as [Hlen Hsegs].
  rewrite length_seq in Hlen.
  assert (∀ i seg, segs !! i = Some seg →
            image_round_trips srv (Point lon lat) scale image_list i seg)
    as Hseg.
  { intros i seg Hi. apply (Hsegs i i seg); [|done].
    apply lookup_seq. split; [done|]. apply lookup_lt_Some in Hi. lia. }
  exists m, segs. repeat (split; [done|]).
  cbn [length]. rewrite (length_concat_const 2).
  - lia.
  - apply Forall_lookup. intros i seg Hi.
    by destruct (Hseg i seg Hi) as (? & ? & ? & ? & _ & _ & ->).
Qed.

End Traces.

Section Outcomes.
Context {num : Type}.
Implicit Types (srv : Service num) (h : gmap loc (list string))
  (df : DataFrame num).

(** X2. When the service reports no image, the size request is the only
    round trip of the call: no list is built, no metadata and no sample are
    asked for. *)
Theorem empty_case_makes_one_round_trip srv h lon lat sd ed addr bands mcc
  scale :
  let landsat := landsat_query (Point lon lat) sd ed addr (h !!! bands) mcc in
  getInfo_number srv (size landsat) = Ok 0 →
  trace (run srv h
    (Landsat_Surface_Reflectance lon lat sd ed addr bands mcc scale))
  = [EvNumber (size landsat) (Ok 0)].
Proof.
  intros landsat Hsize. unfold Landsat_Surface_Reflectance. cbn [bind run].
  fold landsat. rewrite Hsize. cbn [bind run logged trace].
  rewrite decide_True by done. cbn [bind run]. by rewrite run_lift.
Qed.

(** X3. The emptiness test and the loop bound are two separate answers of
    the service. If the first reports images and the second lists none, the
    call returns a table with the usual columns and no row at all, not the
    one-row table of the empty case. *)
Theorem listed_nothing_gives_no_row srv h lon lat sd ed addr bands mcc scale
  n :
  let landsat := landsat_query (Point lon lat) sd ed addr (h !!! bands) mcc in
  getInfo_number srv (size landsat) = Ok n → 1 ≤ n →
  getInfo_number srv (list_size (toList landsat (size landsat))) = Ok 0 →
  returned (run srv h
    (Landsat_Surface_Reflectance lon lat sd ed addr bands mcc scale))
  = Ok {| columns := ["Date"; "Coordinate"] ++ h !!! bands ++ ["CloudCover"];
          rows := [] |}.
Proof.
  intros landsat Hn Hn1 Hm. unfold Landsat_Surface_Reflectance.
  cbn [bind run]. fold landsat. rewrite Hn. cbn [bind run logged returned].
  rewrite decide_False by lia. cbn [bind run]. by rewrite Hm.
Qed.

Lemma feature_loop_error srv h pt bands date cc fs df e :
  columns df = table_columns (h !!! bands) → NoDup (columns df) →
  returned (run srv h (feature_loop pt bands date cc fs df)) = Err e →
  ∃ band, e = KeyError band ∧ band ∈ h !!! bands.
Proof.
  revert df. induction fs as [|f fs IH]; intros df Hcols Hnodup;
    cbn [feature_loop]; [done|].
  rewrite run_bind, feature_body_run. unfold then_run; simpl.
  destruct (band_loop _ _ _) as [d|e'] eqn:Hd; simpl.
  - rewrite append_known_keys
      by (try done; rewrite Hcols; eapply band_loop_keys; eauto).
    simpl. by apply IH.
  - intros [= ->].
    apply band_loop_first_missing
      in Hd as (before & band & after & Hbs & _ & _ & ->).
    exists band. split; [done|]. rewrite Hbs. apply elem_of_app. right. by left.
Qed.

Lemma image_body_explained srv h pt bands scale il i df :
  columns df = table_columns (h !!! bands) → NoDup (columns df) →
  explained (h !!! bands) (run srv h (image_body pt bands scale il i df)).
Proof.
  intros Hcols Hnodup e. unfold image_body. simpl.
  destruct (getInfo_image srv (get il i)) as [info|e0]; simpl.
  2:{ intros [= ->]. left. eexists. split; [by left|done]. }
  unfold getitem, metadata_fields.
  destruct (properties info !! "DATE_ACQUIRED") as [date|]; simpl.
  2:{ intros [= <-]. right. eexists. split; [done|]. left. set_solver. }
  destruct (properties info !! "CLOUD_COVER") as [cc|]; simpl.
  2:{ intros [= <-]. right. eexists. split; [done|]. left. set_solver. }
  destruct (properties info !! "REFLECTANCE_MULT_BAND_2") as [M|]; simpl.
  2:{ intros [= <-]. right. eexists. split; [done|]. left. set_solver. }
  destruct (properties info !! "REFLECTANCE_ADD_BAND_2") as [A|]; simpl.
  2:{ intros [= <-]. right. eexists. split; [done|]. left. set_solver. }
  destruct (getInfo_features srv _) as [fs|e0]; simpl.
  2:{ intros [= ->]. left. eexists. split; [right; by left|done]. }
  intros (band & -> & Hband)%feature_loop_error; [|done..]. right. eauto.
Qed.

Lemma image_loop_explained srv h pt bands scale il range df :
  columns df = table_columns (h !!! bands) → NoDup (columns df) →
  explained (h !!! bands) (run srv h (image_loop pt bands scale il range df)).
Proof.
  revert df. induction range as [|i range IH]; intros df Hcols Hnodup;
    cbn [image_loop]; [done|].
  rewrite run_bind. unfold then_run.
  pose proof (image_body_explained srv h pt bands scale il i df Hcols Hnodup)
    as Hbody.
  destruct (returned (run srv h (image_body pt bands scale il i df)))
    as [df1|e1] eqn:H1; cbn [returned trace].
  - rewrite readonly_frame by apply readonly_image_body.
    apply image_body_returned in H1 as (block & _ & -> & _); [|done].
    intros e He.
    destruct (IH {| columns := columns df; rows := rows df ++ block |}
                Hcols Hnodup e He) as [(ev & Hev & ?)|?]; [|by right].
    left. exists ev. split; [|done]. cbn [trace]. apply elem_of_app. by right.
  - intros e [= <-]. apply Hbody. done.
Qed.

(** X4. With column labels that are all different (no requested band
    repeated or named like a fixed column), the call can only end in an
    exception of one of three kinds: that of a failed round trip, the
    [KeyError] of one of the four metadata fields, or the [KeyError] of a
    requested band. *)
Theorem failures_are_explained srv h lon lat sd ed addr bands mcc scale e :
  let o := run srv h
    (Landsat_Surface_Reflectance lon lat sd ed addr bands mcc scale) in
  NoDup (["Date"; "Coordinate"] ++ h !!! bands ++ ["CloudCover"]) →
  returned o = Err e →
  (∃ ev, ev ∈ trace o ∧ event_error ev = Some e)
  ∨ (∃ key, e = KeyError key
            ∧ (key ∈ metadata_fields ∨ key ∈ h !!! bands)).
Proof.
  intros o Hnodup. subst o.
  destruct (getInfo_number srv
    (size (landsat_query (Point lon lat) sd ed addr (h !!! bands) mcc)))
    as [n|e0] eqn:Hn.
  2:{ unfold Landsat_Surface_Reflectance. cbn [bind run]. rewrite Hn.
      intros [= ->]. left. eexists. split; [by left|done]. }
  destruct (decide (n = 0)) as [->|Hn0].
  { by rewrite returned_empty. }
  unfold Landsat_Surface_Reflectance. cbn [bind run]. rewrite Hn.
  cbn [bind run logged returned trace]. rewrite decide_False by done.
  cbn [bind run].
  destruct (getInfo_number srv (list_size _)) as [m|e0];
    cbn [logged returned trace].
  2:{ intros [= ->]. left. eexists. split; [right; by left|done]. }
  intros He.
  destruct (image_loop_explained srv h (Point lon lat) bands scale _ (seq 0 m)
              (DataFrame_new
                 (["Date"; "Coordinate"] ++ h !!! bands ++ ["CloudCover"]))
              eq_refl Hnodup e He)
    as [(ev & Hev & ?)|?]; [|by right].
  left. exists ev. split; [|done]. by do 2 right.
Qed.

Lemma feature_loop_total srv h pt bands date cc fs df :
  columns df = table_columns (h !!! bands) → NoDup (columns df) →
  (∀ f band, f ∈ fs → band ∈ h !!! bands →
     is_Some (feature_properties f !! band)) →
  ∃ df', returned (run srv h (feature_loop pt bands date cc fs df)) = Ok df'.
Proof.
  revert df. induction fs as [|f fs IH]; intros df Hcols Hnodup Hall;
    cbn [feature_loop]; [by eexists|].
  rewrite run_bind, feature_body_run. unfold then_run; simpl.
  destruct (band_loop_total (h !!! bands) (feature_properties f)
              (data_row_literal (coordinates pt) date cc)) as [d Hd].
  { intros band Hband. apply Hall; [by left|done]. }
  rewrite Hd. simpl.
  rewrite append_known_keys
    by (try done; rewrite Hcols; eapply band_loop_keys; eauto).
  simpl. apply IH; [done..|]. intros f' band Hf'. apply Hall. by right.
Qed.

Lemma image_loop_total srv h pt bands scale il range df :
  columns df = table_columns (h !!! bands) → NoDup (columns df) →
  (∀ i, i ∈ range →
     ∃ info date cloud_cover M A features,
       getInfo_image srv (get il i) = Ok info
       ∧ properties info !! "DATE_ACQUIRED" = Some date
       ∧ properties info !! "CLOUD_COVER" = Some cloud_cover
       ∧ properties info !! "REFLECTANCE_MULT_BAND_2" = Some M
       ∧ properties info !! "REFLECTANCE_ADD_BAND_2" = Some A
       ∧ getInfo_features srv (sample_request pt scale il i M A) = Ok features
       ∧ ∀ feature band, feature ∈ features → band ∈ h !!! bands →
           is_Some (feature_properties feature !! band)) →
  ∃ df', returned (run srv h (image_loop pt bands scale il range df)) = Ok df'.
Proof.
  revert df. induction range as [|i range IH]; intros df Hcols Hnodup Hall;
    cbn [image_loop]; [by eexists|].
  rewrite run_bind. unfold then_run.
  destruct (Hall i) as (info & date & cc & M & A & fs & Hinfo & Hdate & Hcc
                        & HM & HA & Hfs & Hbands); [by left|].
  assert (∃ df1, returned (run srv h (image_body pt bands scale il i df))
                 = Ok df1) as [df1 H1].
  { unfold image_body. simpl. rewrite Hinfo. simpl. unfold getitem.
    rewrite Hdate, Hcc, HM, HA. simpl.
    unfold sample_request in Hfs. rewrite Hfs. simpl.
    by apply feature_loop_total. }
  rewrite H1. cbn [returned].
  rewrite readonly_frame by apply readonly_image_body.
  apply image_body_returned in H1 as (block & _ & -> & _); [|done].
  apply IH; [done..|]. intros j Hj. apply Hall. by right.
Qed.

(** X5. With column labels that are all different, the call returns a table
    whenever the service plays its part: the two sizes are answered, and for
    every listed image the metadata holds the four fields, the sample is
    answered, and every sampled feature has a value for every requested
    band. *)
Theorem well_answered_call_returns srv h lon lat sd ed addr bands mcc scale
  n m :
  let landsat := landsat_query (Point lon lat) sd ed addr (h !!! bands) mcc in
  let image_list := toList landsat (size landsat) in
  NoDup (["Date"; "Coordinate"] ++ h !!! bands ++ ["CloudCover"]) →
  getInfo_number srv (size landsat) = Ok n → 1 ≤ n →
  getInfo_number srv (list_size image_list) = Ok m →
  well_answered srv (Point lon lat) (h !!! bands) scale image_list m →
  ∃ df, returned (run srv h
    (Landsat_Surface_Reflectance lon lat sd ed addr bands mcc scale)) = Ok df.
Proof.
  intros landsat image_list Hnodup Hn Hn1 Hm Hwell.
  unfold Landsat_Surface_Reflectance. cbn [bind run]. fold landsat.
  rewrite Hn. cbn [bind run logged returned]. rewrite decide_False by lia.
  cbn [bind run]. fold image_list. rewrite Hm. cbn [logged returned].
  apply image_loop_total; [done..|]. intros i Hi. apply Hwell.
  apply elem_of_seq in Hi. lia.
Qed.

(** X9. A requested band that is repeated, or that is named like one of the
    three fixed columns, makes the table's labels repeat; the first row the
    call tries to append then fails, so a call that returns a table with at
    least one row has labels that are all different: no band is repeated,
    and none is named Date, Coordinate or CloudCover. *)
Theorem rows_imply_unique_labels srv h lon lat sd ed addr bands mcc scale n df :
  getInfo_number srv
    (size (landsat_query (Point lon lat) sd ed addr (h !!! bands) mcc))
  = Ok n → 1 ≤ n →
  returned (run srv h
    (Landsat_Surface_Reflectance lon lat sd ed addr bands mcc scale)) = Ok df →
  rows df ≠ [] →
  NoDup (h !!! bands)
  ∧ ("Date" ∉ h !!! bands) ∧ ("Coordinate" ∉ h !!! bands)
  ∧ ("CloudCover" ∉ h !!! bands).
Proof.
  intros Hn Hn1 Hret Hrows.
  destruct (returned_blocks _ _ _ _ _ _ _ _ _ _ _ _ Hn Hn1 Hret)
    as (m & blocks & _ & _ & _ & _ & Hnodup).
  by apply table_columns_NoDup, Hnodup.
Qed.

End Outcomes.

Section RowContent.
Context {num : Type}.
Implicit Types (srv : Service num) (h : gmap loc (list string))
  (df : DataFrame num).

Lemma row_of_unique_labels bs (c date cc : value num) props d :
  NoDup (table_columns bs) →
  band_loop bs props (data_row_literal c date cc) = Ok d →
  ∃ values,
    Forall2 (λ band v, props !! band = Some v) bs values
    ∧ row_of (table_columns bs) d = [date; c] ++ values ++ [cc].
Proof.
  intros (_ & Hdate & Hcoord & Hcloud)%table_columns_NoDup Hd.
  pose proof (band_loop_lookup _ _ _ _ Hd) as Hlook.
  exists (map (λ band, default VNaN (d !! band)) bs). split.
  - apply Forall2_fmap_r, Forall_Forall2_diag, Forall_forall.
    intros band Hband.
    destruct (band_loop_present _ _ _ _ Hd band Hband) as (v & Hv & Hdv).
    unfold compose. by rewrite Hv, Hdv.
  - assert (d !! "Date" = Some date) as HD.
    { rewrite Hlook, decide_False by done. unfold data_row_literal.
      by simplify_map_eq. }
    assert (d !! "Coordinate" = Some c) as HC.
    { rewrite Hlook, decide_False by done. unfold data_row_literal.
      by simplify_map_eq. }
    assert (d !! "CloudCover" = Some cc) as HCC.
    { rewrite Hlook, decide_False by done. unfold data_row_literal.
      by simplify_map_eq. }
    unfold row_of, table_columns. cbn [app map]. rewrite map_app. cbn [map].
    by rewrite HD, HC, HCC.
Qed.

(** X6. Every row of a returned table is, in this order: the DATE_ACQUIRED
    value of its image, the list of longitude and latitude of the queried
    point, the sampled feature's value for each requested band in the order
    of the bands, and the CLOUD_COVER value of its image. *)
Theorem rows_are_made_of_cells srv h lon lat sd ed addr bands mcc scale n df :
  let landsat := landsat_query (Point lon lat) sd ed addr (h !!! bands) mcc in
  let image_list := toList landsat (size landsat) in
  getInfo_number srv (size landsat) = Ok n → 1 ≤ n →
  returned (run srv h
    (Landsat_Surface_Reflectance lon lat sd ed addr bands mcc scale)) = Ok df →
  ∃ blocks,
    rows df = concat blocks
    ∧ ∀ i block, blocks !! i = Some block →
        ∃ info date cloud_cover M A features,
          getInfo_image srv (get image_list i) = Ok info
          ∧ properties info !! "DATE_ACQUIRED" = Some date
          ∧ properties info !! "CLOUD_COVER" = Some cloud_cover
          ∧ properties info !! "REFLECTANCE_MULT_BAND_2" = Some M
          ∧ properties info !! "REFLECTANCE_ADD_BAND_2" = Some A
          ∧ getInfo_features srv
              (sample_request (Point lon lat) scale image_list i M A)
            = Ok features
          ∧ Forall2 (λ feature row,
              ∃ values,
                Forall2 (λ band v, feature_properties feature !! band = Some v)
                  (h !!! bands) values
                ∧ row = [date; VList [VNum lon; VNum lat]] ++ values
                        ++ [cloud_cover])
              features block.
Proof.
  intros landsat image_list Hn Hn1 Hret.
  destruct (returned_blocks _ _ _ _ _ _ _ _ _ _ _ _ Hn Hn1 Hret)
    as (m & blocks & _ & _ & Hrows & Hblocks & Hnodup).
  exists blocks. split; [done|]. intros i block Hi.
  destruct (Hblocks i block Hi)
    as (info & date & cc & M & A & fs & ? & ? & ? & ? & ? & ? & Hfs).
  exists info, date, cc, M, A, fs. repeat (split; [done|]).
  apply Forall2_same_length_lookup. split; [by eapply Forall2_length|].
  intros k f row Hf Hrow.
  destruct (Forall2_lookup_lr _ _ _ _ _ _ Hfs Hf Hrow) as (d & Hd & ->).
  apply (row_of_unique_labels _ _ _ _ _ _) in Hd; [done|].
  apply Hnodup. rewrite Hrows. intros Hnil.
  rewrite (concat_nil_lookup _ _ _ Hnil Hi) in Hrow.
  by rewrite lookup_nil in Hrow.
Qed.

End RowContent.

Section Reads.
Context {num : Type}.
Implicit Types (srv : Service num) (h : gmap loc (list string)).

Lemma loads_only_bind l {A B} (p : prog num A) (f : A → prog num B) :
  loads_only l p → (∀ a, loads_only l (f a)) → loads_only l (bind p f).
Proof. intros Hp Hf. induction Hp; simpl; try by constructor. apply Hf. Qed.

Lemma loads_only_lift l {A} (r : result A) : loads_only l (lift (num:=num) r).
Proof. destruct r; constructor. Qed.

Lemma loads_only_run l {A} srv h1 h2 (p : prog num A) :
  loads_only l p → h1 !!! l = h2 !!! l →
  trace (run srv h1 p) = trace (run srv h2 p)
  ∧ returned (run srv h1 p) = returned (run srv h2 p).
Proof.
  intros Hp Hl. induction Hp as [a|e|k _ IH|q k _ IH|q k _ IH|q k _ IH]; simpl;
    try done.
  - rewrite Hl. apply IH.
  - destruct (getInfo_number srv q) as [n|]; [|done]. simpl.
    destruct (IH n) as [-> ->]. done.
  - destruct (getInfo_image srv q) as [n|]; [|done]. simpl.
    destruct (IH n) as [-> ->]. done.
  - destruct (getInfo_features srv q) as [n|]; [|done]. simpl.
    destruct (IH n) as [-> ->]. done.
Qed.

Lemma loads_only_image_loop pt bands scale il range (df : DataFrame num) :
  loads_only bands (image_loop pt bands scale il range df).
Proof.
  revert df. induction range as [|i range IH]; intros df; cbn [image_loop];
    [constructor|].
  apply loads_only_bind; [|done]. unfold image_body. simpl.
  constructor. intros info.
  repeat (apply loads_only_bind; [apply loads_only_lift|]; intros ?).
  simpl. constructor. intros fs. clear. revert df.
  induction fs as [|f fs IHf]; intros df; cbn [feature_loop]; [constructor|].
  apply loads_only_bind; [|done]. unfold feature_body.
  apply loads_only_bind; [apply loads_only_lift|]. intros c. simpl.
  constructor. intros bs. apply loads_only_bind; [apply loads_only_lift|].
  intros d. apply loads_only_lift.
Qed.

(** X8. Of all the list objects of the caller, the call reads the one passed
    as [bands] and no other: two heaps that hold the same list there give
    the same round trips and the same returned table or exception. *)
Theorem only_bands_is_read srv h1 h2 lon lat sd ed addr bands mcc scale :
  h1 !!! bands = h2 !!! bands →
  trace (run srv h1
    (Landsat_Surface_Reflectance lon lat sd ed addr bands mcc scale))
  = trace (run srv h2
      (Landsat_Surface_Reflectance lon lat sd ed addr bands mcc scale))
  ∧ returned (run srv h1
      (Landsat_Surface_Reflectance lon lat sd ed addr bands mcc scale))
    = returned (run srv h2
        (Landsat_Surface_Reflectance lon lat sd ed addr bands mcc scale)).
Proof.
  apply loads_only_run. unfold Landsat_Surface_Reflectance. simpl.
  constructor. intros bs. constructor. intros n.
  destruct (decide (n = 0)); simpl.
  - constructor. intros bs'. apply loads_only_lift.
  - constructor. intros bs'. constructor. intros m.
    apply loads_only_image_loop.
Qed.

End Reads.

(** * The further properties on the concrete catalogues *)

Lemma round_trips_of_a_successful_call_witness :
  ∃ m,
    length (trace (run (ee_service catalogue) example_heap
      (example_call default_collection_address default_bands 10)))
    = 2 + 2 * m.
Proof.
  destruct (round_trips_of_a_successful_call (ee_service catalogue)
              example_heap (-122)%Z 37%Z "2022-01-01" "2022-12-31"
              default_collection_address default_bands 10%Z 30%Z 2
              example_table) as (m & segs & _ & _ & _ & Hcount).
  - vm_compute. reflexivity.
  - lia.
  - vm_compute. reflexivity.
  - exists m. exact Hcount.
Defined.

Lemma empty_case_makes_one_round_trip_witness :
  trace (run (ee_service catalogue) example_heap
    (example_call default_collection_address default_bands 1))
  = [EvNumber (size (example_query default_collection_address default_bands 1))
       (Ok 0)].
Proof.
  apply (empty_case_makes_one_round_trip (ee_service catalogue) example_heap).
  vm_compute. reflexivity.
Defined.

Lemma listed_nothing_gives_no_row_witness :
  returned (run stale_service example_heap
    (example_call default_collection_address default_bands 10))
  = Ok {| columns :=
            ["Date"; "Coordinate"] ++ example_heap !!! default_bands
            ++ ["CloudCover"];
          rows := [] |}.
Proof.
  apply (listed_nothing_gives_no_row stale_service example_heap (-122)%Z 37%Z
           "2022-01-01" "2022-12-31" default_collection_address default_bands
           10%Z 30%Z 1).
  - reflexivity.
  - lia.
  - reflexivity.
Defined.

Lemma failures_are_explained_witness :
  (∃ ev,
     ev ∈ trace (run (ee_service bare_catalogue) example_heap
                   (example_call "bare" default_bands 10))
     ∧ event_error ev = Some (KeyError "REFLECTANCE_ADD_BAND_2"))
  ∨ (∃ key,
       KeyError "REFLECTANCE_ADD_BAND_2" = KeyError key
       ∧ (key ∈ metadata_fields ∨ key ∈ example_heap !!! default_bands)).
Proof.
  apply (failures_are_explained (ee_service bare_catalogue) example_heap
           (-122)%Z 37%Z "2022-01-01" "2022-12-31" "bare" default_bands 10%Z
           30%Z).
  - compute_done.
  - vm_compute. reflexivity.
Defined.

Lemma well_answered_call_returns_witness :
  ∃ df,
    returned (run (ee_service catalogue) example_heap
      (example_call default_collection_address default_bands 10)) = Ok df.
Proof.
  apply (well_answered_call_returns (ee_service catalogue) example_heap
           (-122)%Z 37%Z "2022-01-01" "2022-12-31" default_collection_address
           default_bands 10%Z 30%Z 2 2).
  - compute_done.
  - vm_compute. reflexivity.
  - lia.
  - vm_compute. reflexivity.
  - intros [|[|i]] Hi; [| |lia].
    + eexists _, _, _, _, _, _.
      repeat (split; [vm_compute; reflexivity|]).
      intros f band ->%list_elem_of_singleton Hband.
      vm_compute in Hband.
      repeat (apply elem_of_cons in Hband as [->|Hband];
              [by vm_compute; eexists|]).
      by apply elem_of_nil in Hband.
    + eexists _, _, _, _, _, _.
      repeat (split; [vm_compute; reflexivity|]).
      intros f band ->%list_elem_of_singleton Hband.
      vm_compute in Hband.
      repeat (apply elem_of_cons in Hband as [->|Hband];
              [by vm_compute; eexists|]).
      by apply elem_of_nil in Hband.
Defined.

Lemma rows_are_made_of_cells_witness :
  ∃ blocks : list (list (list (value Z))), rows example_table = concat blocks.
Proof.
  destruct (rows_are_made_of_cells (ee_service catalogue) example_heap
              (-122)%Z 37%Z "2022-01-01" "2022-12-31"
              default_collection_address default_bands 10%Z 30%Z 2
              example_table) as (blocks & Hrows & _).
  - vm_compute. reflexivity.
  - lia.
  - vm_compute. reflexivity.
  - exists blocks. exact Hrows.
Defined.

Lemma band_loop_first_missing_witness :
  band_loop (num:=Z) ["SR_B4"; "SR_B3"; "SR_B2"] {[ "SR_B4" := VNum 1%Z ]} ∅
  = Err (KeyError "SR_B3").
Proof.
  apply band_loop_first_missing.
  exists ["SR_B4"], "SR_B3", ["SR_B2"]. repeat split.
  intros b ->%list_elem_of_singleton. by eexists.
Defined.

Lemma only_bands_is_read_witness :
  trace (run (ee_service catalogue) example_heap
    (example_call default_collection_address default_bands 10))
  = trace (run (ee_service catalogue) other_heap
      (example_call default_collection_address default_bands 10))
  ∧ returned (run (ee_service catalogue) example_heap
      (example_call default_collection_address default_bands 10))
    = returned (run (ee_service catalogue) other_heap
        (example_call default_collection_address default_bands 10)).
Proof.
  apply (only_bands_is_read (ee_service catalogue) example_heap other_heap).
  vm_compute. reflexivity.
Defined.

Lemma rows_imply_unique_labels_witness :
  NoDup (example_heap !!! default_bands)
  ∧ ("Date" ∉ example_heap !!! default_bands)
  ∧ ("Coordinate" ∉ example_heap !!! default_bands)
  ∧ ("CloudCover" ∉ example_heap !!! default_bands).
Proof.
  apply (rows_imply_unique_labels (ee_service catalogue) example_heap (-122)%Z
           37%Z "2022-01-01" "2022-12-31" default_collection_address
           default_bands 10%Z 30%Z 2 example_table).
  - vm_compute. reflexivity.
  - lia.
  - vm_compute. reflexivity.
  - discriminate.
Defined.

(** A band named like a fixed column, or a band asked for twice: the labels
    of the table repeat and the first append fails. *)
Example band_named_coordinate_raises :
  returned (run (ee_service catalogue) example_heap
    (example_call "odd" 2%positive 10))
  = Err (InvalidIndexError
           "Reindexing only valid with uniquely valued Index objects").
Proof. vm_compute. reflexivity. Qed.

Example band_named_cloud_cover_raises :
  returned (run (ee_service catalogue) example_heap
    (example_call "odd" 3%positive 10))
  = Err (InvalidIndexError
           "Reindexing only valid with uniquely valued Index objects").
Proof. vm_compute. reflexivity. Qed.

Example repeated_band_raises :
  returned (run (ee_service catalogue) repeated_heap
    (example_call default_collection_address 4%positive 10))
  = Err (InvalidIndexError
           "Reindexing only valid with uniquely valued Index objects").
Proof. vm_compute. reflexivity. Qed.
